(** * OpenChess web asset pipeline: prepare_littlefs.py and upload_fs.py

    A shallow embedding of the two PlatformIO build scripts under
    [src/web/build]:

    - [prepare_littlefs.py] gzip-compresses (or copies) the minified web
      assets into [data/];
    - [upload_fs.py] uploads the LittleFS image before a firmware upload
      when the SHA-256 fingerprint of [data/] has changed.

    Python [str] values that are file names are modelled by Rocq strings
    holding their UTF-8 bytes: substring search and replacement with ASCII
    patterns, and code point order, are the same on both.  File contents
    are [list byte].  A directory is a finite map from relative paths
    (lists of parts, as pathlib has them) to files and directories; the
    scripts run on a world that holds the directories they read and write
    and the lines they print, and file operations that can fail return a
    value or an exception.

    The definitions come first: Python's string methods, pathlib,
    SHA-256, the file operations, the two scripts, a gzip codec and sample
    trees.  The properties follow, the ones of [upload_fs.py] in
    [UploadGate], the ones of [prepare_littlefs.py] in [PrepareRuns],
    [SingleSource] and [CanonicalAssets]; [Further] has more on both
    scripts: the cleanup of the build directory, where the files of
    [data/] come from, when the script runs to its end, and what the
    hook does with the state file. *)

From Stdlib Require Import ZArith NArith List Ascii String Strings.Byte Bool Lia.
From stdpp Require Import base option list sorting gmap strings pretty.

Local Open Scope string_scope.
Local Open Scope list_scope.

(** ** Python's [str] methods used by the scripts *)

Module Py.

(** [c.lower()] on the ASCII letters. *)
Definition lower_ascii (c : ascii) : ascii :=
  let n := N_of_ascii c in
  if ((65 <=? n) && (n <=? 90))%N then ascii_of_N (n + 32) else c.

(** [s.lower()].  Outside ASCII only U+0130 and U+212A lower to a string
    with an ASCII character ([i] and [k]); neither letter occurs in an
    extension the scripts test, so membership in [SUPPORTED_EXTENSIONS]
    is decided by the ASCII letters alone. *)
Fixpoint lower (s : string) : string :=
  match s with
  | EmptyString => EmptyString
  | String c s' => String (lower_ascii c) (lower s')
  end.

(** [s.startswith(p)]. *)
Definition startswith (p s : string) : bool := String.prefix p s.

(** [p in s]. *)
Fixpoint contains (p s : string) : bool :=
  String.prefix p s ||
  match s with
  | EmptyString => false
  | String _ s' => contains p s'
  end.

(** [s.rfind(c)] for a one-character [c]: the highest index, or -1. *)
Fixpoint rfind (c : ascii) (s : string) : Z :=
  match s with
  | EmptyString => -1
  | String a s' =>
      let r := rfind c s' in
      if (0 <=? r)%Z then (r + 1)%Z
      else if Ascii.eqb a c then 0%Z else (-1)%Z
  end.

(** [s[i:]] for [0 <= i]. *)
Fixpoint drop (i : nat) (s : string) : string :=
  match i, s with
  | O, _ => s
  | S _, EmptyString => EmptyString
  | S k, String _ s' => drop k s'
  end.

(** [s.replace(old, new)] for a non-empty [old]: occurrences are found
    from the left and do not overlap; [skip] counts the characters of the
    occurrence just replaced that are still to be passed over. *)
Fixpoint replace_go (old new : string) (skip : nat) (s : string) : string :=
  match s with
  | EmptyString => EmptyString
  | String c s' =>
      match skip with
      | S k => replace_go old new k s'
      | O =>
          if String.prefix old s
          then String.append new (replace_go old new (String.length old - 1) s')
          else String c (replace_go old new 0 s')
      end
  end.

Definition replace (old new s : string) : string := replace_go old new 0 s.

(** [s.split(c)] for a one-character separator. *)
Fixpoint split (c : ascii) (s : string) : list string :=
  match s with
  | EmptyString => [EmptyString]
  | String a s' =>
      if Ascii.eqb a c then EmptyString :: split c s'
      else match split c s' with
           | h :: t => String a h :: t
           | [] => [String a EmptyString]
           end
  end.

(** [sep.join(parts)]. *)
Definition join (sep : string) (parts : list string) : string :=
  String.concat sep parts.

(** [s.encode()]: the UTF-8 bytes of a name. *)
Definition encode (s : string) : list byte := list_byte_of_string s.

(** The text of a file read with [read_text()] is the list of its code
    points; [text_of] gives the text of a string of ASCII characters. *)
Abbreviation text := (list N).

Definition text_of (s : string) : text := map N_of_ascii (list_ascii_of_string s).

(** [c.isspace()]: the code points Python takes for whitespace. *)
Definition isspace (c : N) : bool :=
  ((9 <=? c) && (c <=? 13) || (28 <=? c) && (c <=? 32) ||
   (c =? 0x85) || (c =? 0xa0) || (c =? 0x1680) ||
   (0x2000 <=? c) && (c <=? 0x200a) || (c =? 0x2028) || (c =? 0x2029) ||
   (c =? 0x202f) || (c =? 0x205f) || (c =? 0x3000))%N.

Fixpoint lstrip (t : text) : text :=
  match t with
  | c :: t' => if isspace c then lstrip t' else t
  | [] => []
  end.

(** [s.strip()]. *)
Definition strip (t : text) : text := reverse (lstrip (reverse (lstrip t))).

End Py.

(** ** pathlib *)

Module PathLib.

(** A path is the list of its parts, relative to the directory it was
    found in. *)
Abbreviation path := (list string).

(** [p.name]: the last part. *)
Definition name (p : path) : string := List.last p "".

(** [p.parent]. *)
Definition parent (p : path) : path := removelast p.

(** [p < q] and [p == q] on paths compare the lists of parts, each part
    by code points; [compare] is that three-way comparison. *)
Fixpoint compare (p q : path) : comparison :=
  match p, q with
  | [], [] => Eq
  | [], _ :: _ => Lt
  | _ :: _, [] => Gt
  | a :: p', b :: q' =>
      match String.compare a b with
      | Eq => compare p' q'
      | c => c
      end
  end.

Definition le (p q : path) : Prop := compare p q <> Gt.

#[global] Instance le_dec : RelDecision le.
Proof. intros p q. unfold le. destruct (compare p q); [left|left|right]; congruence. Defined.

(** [sorted(paths)]. *)
Definition sorted (l : list path) : list path := merge_sort le l.

(** [PurePath.suffix] of a file name:
    [i = name.rfind('.')], and [name[i:]] when [0 < i < len(name) - 1]. *)
Definition suffix (name : string) : string :=
  let i := Py.rfind "." name in
  if ((0 <? i) && (i <? Z.of_nat (String.length name) - 1))%Z
  then Py.drop (Z.to_nat i) name
  else "".

(** [str(p)] on POSIX. *)
Definition str (p : path) : string := Py.join "/" p.

End PathLib.

(** ** hashlib.sha256 (FIPS 180-4) *)

Module Sha256.

Local Open Scope Z_scope.

Definition add32 (x y : Z) : Z := (x + y) mod 2 ^ 32.

Definition rotr (n x : Z) : Z :=
  Z.lor (Z.shiftr x n) (Z.shiftl x (32 - n) mod 2 ^ 32).

Definition shr (n x : Z) : Z := Z.shiftr x n.

Definition not32 (x : Z) : Z := Z.lxor x 0xffffffff.

Definition Ch (x y z : Z) : Z := Z.lxor (Z.land x y) (Z.land (not32 x) z).

Definition Maj (x y z : Z) : Z :=
  Z.lxor (Z.lxor (Z.land x y) (Z.land x z)) (Z.land y z).

Definition Sigma0 (x : Z) : Z := Z.lxor (Z.lxor (rotr 2 x) (rotr 13 x)) (rotr 22 x).
Definition Sigma1 (x : Z) : Z := Z.lxor (Z.lxor (rotr 6 x) (rotr 11 x)) (rotr 25 x).
Definition sigma0 (x : Z) : Z := Z.lxor (Z.lxor (rotr 7 x) (rotr 18 x)) (shr 3 x).
Definition sigma1 (x : Z) : Z := Z.lxor (Z.lxor (rotr 17 x) (rotr 19 x)) (shr 10 x).

(** The round constants, eight rounds to a row. *)
Definition K_00_07 : list Z :=
  [0x428a2f98; 0x71374491; 0xb5c0fbcf; 0xe9b5dba5; 0x3956c25b; 0x59f111f1; 0x923f82a4; 0xab1c5ed5].
Definition K_08_15 : list Z :=
  [0xd807aa98; 0x12835b01; 0x243185be; 0x550c7dc3; 0x72be5d74; 0x80deb1fe; 0x9bdc06a7; 0xc19bf174].
Definition K_16_23 : list Z :=
  [0xe49b69c1; 0xefbe4786; 0x0fc19dc6; 0x240ca1cc; 0x2de92c6f; 0x4a7484aa; 0x5cb0a9dc; 0x76f988da].
Definition K_24_31 : list Z :=
  [0x983e5152; 0xa831c66d; 0xb00327c8; 0xbf597fc7; 0xc6e00bf3; 0xd5a79147; 0x06ca6351; 0x14292967].
Definition K_32_39 : list Z :=
  [0x27b70a85; 0x2e1b2138; 0x4d2c6dfc; 0x53380d13; 0x650a7354; 0x766a0abb; 0x81c2c92e; 0x92722c85].
Definition K_40_47 : list Z :=
  [0xa2bfe8a1; 0xa81a664b; 0xc24b8b70; 0xc76c51a3; 0xd192e819; 0xd6990624; 0xf40e3585; 0x106aa070].
Definition K_48_55 : list Z :=
  [0x19a4c116; 0x1e376c08; 0x2748774c; 0x34b0bcb5; 0x391c0cb3; 0x4ed8aa4a; 0x5b9cca4f; 0x682e6ff3].
Definition K_56_63 : list Z :=
  [0x748f82ee; 0x78a5636f; 0x84c87814; 0x8cc70208; 0x90befffa; 0xa4506ceb; 0xbef9a3f7; 0xc67178f2].

Definition K : list Z :=
  K_00_07 ++ K_08_15 ++ K_16_23 ++ K_24_31 ++
  K_32_39 ++ K_40_47 ++ K_48_55 ++ K_56_63.

(** The eight working variables, and the hash value between blocks. *)
Record state := State { sa : Z; sb : Z; sc : Z; sd : Z; se : Z; sf : Z; sg : Z; sh : Z }.

Definition H0 : state :=
  State 0x6a09e667 0xbb67ae85 0x3c6ef372 0xa54ff53a
        0x510e527f 0x9b05688c 0x1f83d9ab 0x5be0cd19.

(** The message length in bits on 8 bytes, the padding's last field. *)
Definition be_bytes (n : nat) (x : Z) : list Z :=
  map (fun i => Z.shiftr x (8 * Z.of_nat i) mod 256) (rev (seq 0 n)).

Definition pad (msg : list Z) : list Z :=
  let len := Z.of_nat (length msg) in
  let zeros := Z.to_nat ((55 - len) mod 64) in
  msg ++ [128] ++ repeat 0 zeros ++ be_bytes 8 ((8 * len) mod 2 ^ 64).

Definition word_of (b : list Z) : Z :=
  fold_left (fun acc x => acc * 256 + x) b 0.

(** The big-endian 32-bit words of a byte string of a multiple of 4 bytes;
    [fuel] only has to reach the number of words. *)
Fixpoint words (fuel : nat) (b : list Z) : list Z :=
  match fuel, b with
  | S k, _ :: _ => word_of (firstn 4 b) :: words k (skipn 4 b)
  | _, _ => []
  end.

(** [W_16 .. W_63]: [win] holds the sixteen words before the next one. *)
Fixpoint schedule (n : nat) (win : list Z) : list Z :=
  match n with
  | O => []
  | S k =>
      let w := add32 (add32 (sigma1 (nth 14 win 0)) (nth 9 win 0))
                     (add32 (sigma0 (nth 1 win 0)) (nth 0 win 0)) in
      w :: schedule k (tl win ++ [w])
  end.

Definition round (s : state) (kw : Z * Z) : state :=
  let t1 := add32 (add32 (add32 (sh s) (Sigma1 (se s))) (Ch (se s) (sf s) (sg s)))
                  (add32 (fst kw) (snd kw)) in
  let t2 := add32 (Sigma0 (sa s)) (Maj (sa s) (sb s) (sc s)) in
  State (add32 t1 t2) (sa s) (sb s) (sc s) (add32 (sd s) t1) (se s) (sf s) (sg s).

Definition compress (h : state) (block : list Z) : state :=
  let w := words 16 block in
  let s := fold_left round (combine K (w ++ schedule 48 w)) h in
  State (add32 (sa h) (sa s)) (add32 (sb h) (sb s)) (add32 (sc h) (sc s))
        (add32 (sd h) (sd s)) (add32 (se h) (se s)) (add32 (sf h) (sf s))
        (add32 (sg h) (sg s)) (add32 (sh h) (sh s)).

(** One block of 64 bytes at a time; [fuel] only has to reach the number
    of blocks. *)
Fixpoint blocks (fuel : nat) (h : state) (b : list Z) : state :=
  match fuel, b with
  | S k, _ :: _ => blocks k (compress h (firstn 64 b)) (skipn 64 b)
  | _, _ => h
  end.

Definition digest (msg : list byte) : state :=
  let p := pad (map (fun b => Z.of_N (Byte.to_N b)) msg) in
  blocks (length p) H0 p.

Definition hex_digit (x : Z) : ascii :=
  ascii_of_N (Z.to_N (if x <? 10 then 48 + x else 87 + x)).

(** The eight lower-case hexadecimal digits of a 32-bit word. *)
Definition hex_word (x : Z) (rest : string) : string :=
  String (hex_digit (Z.shiftr x 28 mod 16)) (String (hex_digit (Z.shiftr x 24 mod 16))
  (String (hex_digit (Z.shiftr x 20 mod 16)) (String (hex_digit (Z.shiftr x 16 mod 16))
  (String (hex_digit (Z.shiftr x 12 mod 16)) (String (hex_digit (Z.shiftr x 8 mod 16))
  (String (hex_digit (Z.shiftr x 4 mod 16)) (String (hex_digit (x mod 16)) rest))))))).

Definition hex (s : state) : string :=
  hex_word (sa s) (hex_word (sb s) (hex_word (sc s) (hex_word (sd s)
  (hex_word (se s) (hex_word (sf s) (hex_word (sg s) (hex_word (sh s) ""))))))).

(** [hashlib.sha256()], [h.update(data)] and [h.hexdigest()]: the object
    holds what was fed to it so far. *)
Definition hasher := list byte.
Definition new : hasher := [].
Definition update (h : hasher) (data : list byte) : hasher := h ++ data.
Definition hexdigest (h : hasher) : string := hex (digest h).

End Sha256.

(** ** The file system the scripts work on *)

Module Fs.

Import PathLib.

Inductive node :=
  | File (content : list byte)
  | Dir.

(** The entries below a directory, by their path relative to it. *)
Abbreviation tree := (gmap path node).

(** What stands at [data/] or at [src/web/build]. *)
Inductive slot :=
  | Missing
  | Regular (content : list byte)
  | Folder (t : tree).

(** The exceptions of the file operations.  [LeavesTree] is not a Python
    exception: it marks a destination outside [data/] (an absolute clean
    name, or one with a [..] part), which this model does not follow. *)
Inductive exn :=
  | FileNotFoundError
  | FileExistsError
  | NotADirectoryError
  | IsADirectoryError
  | LeavesTree.

(** A computation returns a value or raises. *)
Definition result (A : Type) : Type := (exn + A)%type.

Definition ret {A} (a : A) : result A := inr a.
Definition raise {A} (e : exn) : result A := inl e.
Definition bind {A B} (m : result A) (k : A -> result B) : result B :=
  match m with
  | inl e => inl e
  | inr a => k a
  end.

Notation "'perform' x <- m ; k" := (bind m (fun x => k))
  (at level 10, x name, m at level 100, k at level 200).

(** A [for] loop whose body may raise. *)
Fixpoint for_each {A S} (body : S -> A -> result S) (l : list A) (s : S) : result S :=
  match l with
  | [] => ret s
  | x :: l' => perform s' <- body s x ; for_each body l' s'
  end.

(** The node at [p]; the directory itself is at [[]]. *)
Definition lookup_node (t : tree) (p : path) : option node :=
  match p with
  | [] => Some Dir
  | _ => t !! p
  end.

Definition is_dir (t : tree) (p : path) : bool :=
  match lookup_node t p with
  | Some Dir => true
  | _ => false
  end.

Definition is_file (t : tree) (p : path) : bool :=
  match lookup_node t p with
  | Some (File _) => true
  | _ => false
  end.

(** [os.mkdir(p)]. *)
Definition os_mkdir (t : tree) (p : path) : result tree :=
  match lookup_node t p with
  | Some _ => raise FileExistsError
  | None =>
      match lookup_node t (parent p) with
      | Some Dir => ret (<[p := Dir]> t)
      | Some (File _) => raise NotADirectoryError
      | None => raise FileNotFoundError
      end
  end.

(** [p.mkdir(parents=True, exist_ok=True)], as pathlib does it: try
    [os.mkdir]; when the parent is missing make the parent first and try
    again; any other error is passed over when [p] is a directory.
    [fuel] only has to reach the number of parts of [p]. *)
Fixpoint mkdir_parents (fuel : nat) (t : tree) (p : path) : result tree :=
  match os_mkdir t p with
  | inr t' => ret t'
  | inl FileNotFoundError =>
      match fuel with
      | O => raise FileNotFoundError
      | S k =>
          perform t1 <- mkdir_parents k t (parent p) ;
          match os_mkdir t1 p with
          | inr t' => ret t'
          | inl FileNotFoundError => raise FileNotFoundError
          | inl e => if is_dir t1 p then ret t1 else raise e
          end
      end
  | inl e => if is_dir t p then ret t else raise e
  end.

(** [p.write_bytes(data)]. *)
Definition write_bytes (t : tree) (p : path) (data : list byte) : result tree :=
  match lookup_node t p with
  | Some Dir => raise IsADirectoryError
  | _ =>
      match lookup_node t (parent p) with
      | Some Dir => ret (<[p := File data]> t)
      | Some (File _) => raise NotADirectoryError
      | None => raise FileNotFoundError
      end
  end.

(** [shutil.copy(src, dst)] of a file named [src_name] holding [raw]:
    into [dst] when that is a directory, else onto [dst]. *)
Definition shutil_copy (t : tree) (src_name : string) (raw : list byte) (dst : path)
  : result tree :=
  write_bytes t (if is_dir t dst then dst ++ [src_name] else dst) raw.

(** [shutil.rmtree(d / name)] for an entry [name] of the directory. *)
Definition rmtree (t : tree) (name : string) : tree :=
  filter (fun kv => ~ [name] `prefix_of` kv.1) t.

(** [t'] is [t] with more directories: every entry of [t] is in [t'],
    and every file of [t'] is in [t]. *)
Definition more_dirs (t t' : tree) : Prop :=
  (forall q v, t !! q = Some v -> t' !! q = Some v) /\
  (forall q c, t' !! q = Some (File c) -> t !! q = Some (File c)).

(** [root / s] for a string [s], as parts below [root]: pathlib splits
    at [/] and drops empty and [.] parts. *)
Definition child (s : string) : result path :=
  let parts := List.filter (fun x => negb (String.eqb x "" || String.eqb x "."))
                           (Py.split "/" s) in
  if Py.startswith "/" s then raise LeavesTree
  else if existsb (String.eqb "..") parts then raise LeavesTree
  else ret parts.

(** [d.exists()], [(d / f).is_file()] and [(d / f).read_bytes()] for what
    stands at [d]. *)
Definition exists_ (d : slot) : bool :=
  match d with
  | Missing => false
  | _ => true
  end.

Definition file_in (d : slot) (f : path) : bool :=
  match d with
  | Folder t => is_file t f
  | _ => false
  end.

Definition read_bytes (d : slot) (f : path) : list byte :=
  match d with
  | Folder t => match t !! f with Some (File b) => b | _ => [] end
  | _ => []
  end.

(** [any(paths)]: a path is always true. *)
Definition any_path (l : list path) : bool :=
  match l with
  | [] => false
  | _ :: _ => true
  end.

(** A map that is the content of a directory: every entry has a name
    and stands in a directory of the map. *)
Definition well_formed (t : tree) : Prop :=
  map_Forall (fun p _ => p <> [] /\ is_dir t (parent p) = true) t.

End Fs.

(** ** gzip and the directory listing

    Two operations of the platform are parameters of the scripts:
    [gzip.compress(data, compresslevel, mtime)], and [d.rglob("*")],
    every entry below a directory in the order the system lists them. *)

Definition lists_every_entry (rglob : Fs.tree -> list PathLib.path) : Prop :=
  forall t : Fs.tree, rglob t ≡ₚ (map_to_list t).*1.

(** One such listing: the keys, in the order of the map. *)
Definition listing (t : Fs.tree) : list PathLib.path := (map_to_list t).*1.

(** ** prepare_littlefs.py *)

Module Prepare.

Import PathLib Fs.

Definition SUPPORTED_EXTENSIONS : list string :=
  [".html"; ".css"; ".js"; ".svg"; ".mp3"].

Definition is_nogz (filename : string) : bool := Py.contains ".nogz." filename.

(** [f.suffix.lower() in SUPPORTED_EXTENSIONS]. *)
Definition supported (f : path) : bool :=
  bool_decide (Py.lower (suffix (name f)) ∈ SUPPORTED_EXTENSIONS).

(** [str(rel).replace("\\", "/").replace(".nogz", "")]. *)
Definition clean_name (rel : path) : string :=
  Py.replace ".nogz" "" (Py.replace "\" "/" (str rel)).

(** The destination the first loop of [prepare] computes for the entry
    [f], as the string it joins to [DATA_DIR]. *)
Definition target (f : path) : string :=
  if is_nogz (name f) then clean_name f else String.append (clean_name f) ".gz".

(** A name as a directory holds it: not empty, not [.] or [..], and
    without a slash. *)
Definition is_name (n : string) : bool :=
  negb (String.eqb n "") && negb (String.eqb n ".") && negb (String.eqb n "..") &&
  negb (Py.contains "/" n).

(** A string without the marker and without a backslash. *)
Definition unmarked (s : string) : bool :=
  negb (Py.contains ".nogz" s) && negb (Py.contains "\" s).

(** A relative path of such names whose string is unmarked. *)
Definition plain (f : path) : bool := forallb is_name f && unmarked (str f).

(** A supported file of the build directory [src]. *)
Definition eligible (src : slot) (f : path) : Prop :=
  file_in src f = true /\ supported f = true.

(** The first loop writes the entry [f] at [q]: at its destination, or
    below it under the name of [f] when [f] is copied and the destination
    is a directory ([shutil.copy] into a directory). *)
Definition written_at (f q : path) : Prop :=
  exists out, child (target f) = inr out /\
    (q = out \/ (is_nogz (name f) = true /\ q = out ++ [name f])).

(** The entry of [data/] the first loop writes for [f], read off the
    [data/] it ends with: a copied file went below its destination when
    that is a directory of [d]. *)
Definition place (d : tree) (f : path) : result path :=
  perform out <- child (target f);
  ret (if is_nogz (name f) && is_dir d out then out ++ [name f] else out).

(** The test of the second loop on the name of an entry:
    [entry.name.startswith(".") or entry.suffix == ".py"]. *)
Definition kept (n : string) : bool :=
  Py.startswith "." n || String.eqb (suffix n) ".py".

(** [BUILD_DIR], [DATA_DIR] and the two output streams, a line each. *)
Record world := World {
  build : slot;
  data : slot;
  stdout : list string;
  stderr : list string
}.

Definition print (line : string) (w : world) : world :=
  World (build w) (data w) (stdout w ++ [line]) (stderr w).

Definition print_err (line : string) (w : world) : world :=
  World (build w) (data w) (stdout w) (stderr w ++ [line]).

Section Script.

Variable rglob : tree -> list path.
Variable gzip_compress : Z -> Z -> list byte -> list byte.

(** [d.rglob("*")]: nothing when [d] is no directory. *)
Definition entries (d : slot) : list path :=
  match d with
  | Folder t => rglob t
  | _ => []
  end.

(** [d.iterdir()]. *)
Definition iterdir (t : tree) : list path :=
  List.filter (fun p => Nat.eqb (length p) 1) (rglob t).

(** The body of the first loop of [prepare], on the entry [f] of the
    build directory [src]; [acc] is what [data/] holds and [count]. *)
Definition process (src : slot) (acc : tree * nat) (f : path) : result (tree * nat) :=
  if negb (file_in src f) then ret acc
  else if negb (supported f) then ret acc
  else
    let raw := read_bytes src f in
    let clean := clean_name f in
    if is_nogz (name f) then
      perform out <- child clean;
      perform d1 <- mkdir_parents (length out) acc.1 (parent out);
      perform d2 <- shutil_copy d1 (name f) raw out;
      ret (d2, S acc.2)
    else
      perform out <- child (String.append clean ".gz");
      perform d1 <- mkdir_parents (length out) acc.1 (parent out);
      perform d2 <- write_bytes d1 out (gzip_compress 9 0 raw);
      ret (d2, S acc.2).

(** The bytes the first loop writes for the entry [f]. *)
Definition payload (src : slot) (f : path) : list byte :=
  if is_nogz (name f) then read_bytes src f
  else gzip_compress 9 0 (read_bytes src f).

(** [q] and [c] are the entry of [data/] and the bytes for the eligible
    file [f] when it is compressed and its path is left as it is. *)
Definition asset_of (src : slot) (f q : path) (c : list byte) : Prop :=
  eligible src f /\ q = parent f ++ [String.append (name f) ".gz"] /\
  c = gzip_compress 9 0 (read_bytes src f).

(** The body of the second loop, on the entry [entry] of the build
    directory. *)
Definition discard (t : tree) (entry : path) : tree :=
  if Py.startswith "." (name entry) || String.eqb (suffix (name entry)) ".py" then t
  else if is_dir t entry then rmtree t (name entry)
  else if is_file t entry then delete entry t
  else t.

Definition prepare (w : world) : result world :=
  perform _ <- match data w with
               | Regular _ => raise NotADirectoryError
               | _ => ret tt
               end;
  perform r <- for_each (process (build w)) (sorted (entries (build w))) (∅, 0);
  perform b <- match build w with
               | Folder t => ret (fold_left discard (rev (sorted (iterdir t))) t)
               | Regular _ => raise NotADirectoryError
               | Missing => raise FileNotFoundError
               end;
  ret (print (String.append "LittleFS: Prepared "
                (String.append (pretty r.2) " web assets in data/"))
             (World (Folder b) (Folder r.1) (stdout w) (stderr w))).

Definition has_files (w : world) : bool :=
  exists_ (build w) &&
  existsb (fun f => file_in (build w) f && supported f) (entries (build w)).

(** [d.exists() and any(d.rglob("*"))]. *)
Definition has_content (d : slot) : bool :=
  exists_ d && any_path (entries d).

(** The script, as PlatformIO runs it before the build. *)
Definition script (w : world) : result world :=
  if negb (has_files w) then
    if has_content (data w) then
      ret (print "No minified files in src/web/build/ — using existing data/ from repository." w)
    else
      ret (print_err "Install minification tools or restore data/ from the repository."
            (print_err "Warning: No minified files found and no pre-built data/ directory." w))
  else prepare w.

End Script.

End Prepare.

(** ** upload_fs.py *)

Module Upload.

Import PathLib Fs.

(** [DATA_DIR], the text of [HASH_FILE] when it exists, the two output
    streams, and the commands run so far. *)
Record world := World {
  data : slot;
  hash_file : option Py.text;
  stdout : list string;
  stderr : list string;
  commands : list (list string)
}.

Section Hook.

Variable rglob : tree -> list path.

(** [sys.executable], [env.subst("$PIOENV")], and the exit status of
    [subprocess.run(argv, check=False)]. *)
Variable executable : string.
Variable PIOENV : string.
Variable returncode : list string -> Z.

Definition entries (d : slot) : list path :=
  match d with
  | Folder t => rglob t
  | _ => []
  end.

(** The body of the loop of [compute_data_hash]. *)
Definition feed (d : slot) (h : Sha256.hasher) (f : path) : Sha256.hasher :=
  if file_in d f
  then Sha256.update (Sha256.update h (Py.encode (str f))) (read_bytes d f)
  else h.

Definition compute_data_hash (d : slot) : string :=
  if negb (exists_ d) then ""
  else Sha256.hexdigest (fold_left (feed d) (sorted (entries d)) Sha256.new).

Definition upload_command : list string :=
  [executable; "-m"; "platformio"; "run"; "--target"; "uploadfs";
   "--environment"; PIOENV].

(** [previous_hash], as the hook reads it: the stripped text of
    [HASH_FILE], or the empty string when there is no such file. *)
Definition previous_hash (w : world) : Py.text :=
  match hash_file w with
  | Some t => Py.strip t
  | None => Py.text_of ""
  end.

Definition upload_fs_if_changed (w : world) : world :=
  if negb (exists_ (data w)) || negb (any_path (entries (data w)))
  then World (data w) (hash_file w)
             (stdout w ++ ["LittleFS: No data/ directory, skipping filesystem upload"])
             (stderr w) (commands w)
  else
    let current_hash := compute_data_hash (data w) in
    let previous_hash := previous_hash w in
    if bool_decide (Py.text_of current_hash = previous_hash) then
      World (data w) (hash_file w)
            (stdout w ++ ["LittleFS: Web assets unchanged — skipping filesystem upload"])
            (stderr w) (commands w)
    else
      let out := stdout w ++ ["LittleFS: Web assets changed — uploading filesystem image..."] in
      let ran := commands w ++ [upload_command] in
      if (returncode upload_command =? 0)%Z then
        World (data w) (Some (Py.text_of current_hash))
              (out ++ ["LittleFS: Filesystem uploaded successfully"])
              (stderr w) ran
      else
        World (data w) (hash_file w) out
              (stderr w ++ ["LittleFS: Filesystem upload FAILED!"]) ran.

End Hook.

End Upload.

(** ** A gzip codec

    [gzip.compress] is a parameter of the script.  One function it can
    stand for: the gzip member (RFC 1952) whose deflate stream (RFC 1951)
    holds the data in stored blocks, with the decoder of such members. *)

Module Gzip.

Local Open Scope Z_scope.

Definition Z_of_byte (b : byte) : Z := Z.of_N (Byte.to_N b).

Definition byte_of_Z (x : Z) : byte :=
  match Byte.of_N (Z.to_N (x mod 256)) with
  | Some b => b
  | None => x00
  end.

(** The [n] low bytes of [x], lowest first. *)
Definition le_bytes (n : nat) (x : Z) : list byte :=
  map (fun i => byte_of_Z (Z.shiftr x (8 * Z.of_nat i))) (seq 0 n).

(** The number whose bytes are [l], lowest first. *)
Fixpoint le_value (l : list byte) : Z :=
  match l with
  | [] => 0
  | b :: l' => Z_of_byte b + 256 * le_value l'
  end.

(** CRC-32, one bit at a time. *)
Definition crc_bit (crc : Z) : Z :=
  if Z.testbit crc 0 then Z.lxor (Z.shiftr crc 1) 0xedb88320 else Z.shiftr crc 1.

Definition crc_byte (crc : Z) (b : byte) : Z :=
  Nat.iter 8 crc_bit (Z.lxor crc (Z_of_byte b)).

Definition crc32 (data : list byte) : Z :=
  Z.lxor (fold_left crc_byte data 0xffffffff) 0xffffffff.

(** A stored block: the header bits ([BFINAL], [BTYPE = 00]) in a byte,
    [LEN], its complement on 16 bits [NLEN], and the bytes. *)
Definition stored_block (final : bool) (chunk : list byte) : list byte :=
  let len := Z.of_nat (length chunk) in
  [if final then x01%byte else x00%byte] ++ le_bytes 2 len ++
  le_bytes 2 (0xffff - len) ++ chunk.

(** The most bytes a stored block holds: [LEN] has 16 bits. *)
Definition max_stored : nat := Z.to_nat 65535.

(** The data in blocks of at most [max_stored] bytes; [fuel] only has to
    reach the number of blocks. *)
Fixpoint stored_blocks (fuel : nat) (data : list byte) : list byte :=
  match fuel with
  | O => stored_block true data
  | S k =>
      if (length data <=? max_stored)%nat then stored_block true data
      else stored_block false (take max_stored data) ++
           stored_blocks k (drop max_stored data)
  end.

(** The trailer: CRC-32 and length modulo [2^32]. *)
Definition trailer (data : list byte) : list byte :=
  le_bytes 4 (crc32 data) ++ le_bytes 4 (Z.of_nat (length data) mod 2 ^ 32).

(** [compress compresslevel mtime data]: the header carries [mtime] and,
    in [XFL], whether the level is the highest or the lowest. *)
Definition compress (compresslevel mtime : Z) (data : list byte) : list byte :=
  [x1f; x8b; x08; x00]%byte ++ le_bytes 4 mtime ++
  [if compresslevel =? 9 then x02%byte
   else if compresslevel =? 1 then x04%byte else x00%byte; xff%byte] ++
  stored_blocks (length data) data ++ trailer data.

(** The blocks of a deflate stream of stored blocks, and what follows the
    last one; [fuel] only has to reach the number of blocks. *)
Fixpoint inflate_stored (fuel : nat) (z : list byte) : option (list byte * list byte) :=
  match fuel, z with
  | S k, hdr :: l0 :: l1 :: n0 :: n1 :: rest =>
      let len := le_value [l0; l1] in
      if negb (0xffff - len =? le_value [n0; n1]) then None
      else if (length rest <? Z.to_nat len)%nat then None
      else
        let chunk := take (Z.to_nat len) rest in
        let rest' := drop (Z.to_nat len) rest in
        if Z_of_byte hdr =? 1 then Some (chunk, rest')
        else if Z_of_byte hdr =? 0 then
          match inflate_stored k rest' with
          | Some (data, tl) => Some (chunk ++ data, tl)
          | None => None
          end
        else None
  | _, _ => None
  end.

(** [gzip.decompress] of a member without optional header fields whose
    blocks are stored ones. *)
Definition decompress (z : list byte) : option (list byte) :=
  match z with
  | id1 :: id2 :: cm :: flg :: _ :: _ :: _ :: _ :: _ :: _ :: body =>
      if negb (bool_decide (map Z_of_byte [id1; id2; cm; flg] = [0x1f; 0x8b; 8; 0]))
      then None
      else
        match inflate_stored (length body) body with
        | Some (data, tl) =>
            if bool_decide (map Z_of_byte tl = map Z_of_byte (trailer data))
            then Some data else None
        | None => None
        end
  | _ => None
  end.

End Gzip.

(** ** Sample trees *)

Module Samples.

Import Fs.

(** Two empty files, before and after [ab] is renamed to [ba]. *)
Definition renamed_before : tree :=
  list_to_map [(["ab"], File []); (["aba"], File [])].

Definition renamed_after : tree :=
  list_to_map [(["aba"], File []); (["ba"], File [])].

(** A canonical tree of two assets. *)
Definition two_assets : tree :=
  list_to_map [(["a.css.gz"], File [x1f; x8b]%byte); (["b.bin"], File [x00]%byte)].

(** A build directory: three assets, one of them marked, a source map
    and a dot file. *)
Definition site : tree :=
  list_to_map
    [(["index.html"], File (Py.encode "<html></html>"));
     (["STYLE.CSS"], File (Py.encode "body{}"));
     (["sounds"], Dir);
     (["sounds"; "move.nogz.mp3"], File [x49; x44; x33]%byte);
     (["app.js.map"], File (Py.encode "{}"));
     ([".gitignore"], File (Py.encode "*"))].

(** Two sources with one destination. *)
Definition colliding : tree :=
  list_to_map [(["a.nogzb.js"], File [x01]%byte); (["ab.js"], File [x02]%byte)].

(** A marked directory and a file whose name holds the marker without
    the dot after it. *)
Definition marked : tree :=
  list_to_map
    [(["d.nogz"], Dir); (["d.nogz"; "x.js"], File [x01]%byte);
     (["a.nogzb.js"], File [x02]%byte)].

(** A build directory with a supported file below a dot directory. *)
Definition dot_dir : tree :=
  list_to_map
    [(["a.css"], File (Py.encode "a{}"));
     ([".keep"], Dir);
     ([".keep"; "x.js"], File (Py.encode "x()"))].

(** A build directory without marked names. *)
Definition plain_site : tree :=
  list_to_map
    [(["index.html"], File (Py.encode "<html></html>"));
     (["js"], Dir);
     (["js"; "app.js"], File (Py.encode "f()"));
     (["js"; "app.js.map"], File (Py.encode "{}"));
     ([".gitignore"], File (Py.encode "*"))].

(** A directory named as the compressed form of the file beside it. *)
Definition gz_dir : tree :=
  list_to_map
    [(["a.js"], File (Py.encode "a()"));
     (["a.js.gz"], Dir);
     (["a.js.gz"; "b.js"], File (Py.encode "b()"))].

End Samples.

(* ================================================================= *)
(** * Properties *)

(** ** The order of paths *)

Module PathOrder.
Import PathLib.

Lemma string_compare_refl (s : string) : String.compare s s = Eq.
Proof.
  induction s as [|a s IH]; simpl; [done|].
  unfold Ascii.compare. by rewrite N.compare_refl.
Qed.

Lemma string_lt_trans (a b c : string) :
  String.compare a b = Lt -> String.compare b c = Lt -> String.compare a c = Lt.
Proof.
  intros Hab Hbc.
  assert (Hle : String.le a c).
  { transitivity b; unfold String.le, String.leb; [by rewrite Hab | by rewrite Hbc]. }
  unfold String.le, String.leb in Hle.
  destruct (String.compare a c) eqn:Hac; [|done|done].
  apply String.compare_eq_iff in Hac as ->.
  rewrite String.compare_antisym, Hbc in Hab. discriminate.
Qed.

Lemma compare_refl (p : path) : compare p p = Eq.
Proof. induction p as [|a p IH]; simpl; [done|]. by rewrite string_compare_refl. Qed.

Lemma compare_eq (p q : path) : compare p q = Eq -> p = q.
Proof.
  revert q; induction p as [|a p IH]; intros [|b q]; simpl; try done.
  destruct (String.compare a b) eqn:Hab; try done.
  intros Hpq. apply String.compare_eq_iff in Hab as ->. f_equal. by apply IH.
Qed.

Lemma compare_antisym (p q : path) : compare p q = CompOpp (compare q p).
Proof.
  revert q; induction p as [|a p IH]; intros [|b q]; simpl; try done.
  rewrite String.compare_antisym.
  destruct (String.compare b a); simpl; auto.
Qed.

Lemma compare_lt_trans (p q r : path) :
  compare p q = Lt -> compare q r = Lt -> compare p r = Lt.
Proof.
  revert q r; induction p as [|a p IH]; intros [|b q] [|c r]; simpl; try done.
  destruct (String.compare a b) eqn:Hab; try done.
  - apply String.compare_eq_iff in Hab as ->.
    destruct (String.compare b c); try done. apply IH.
  - destruct (String.compare b c) eqn:Hbc; try done.
    + apply String.compare_eq_iff in Hbc as <-. by rewrite Hab.
    + by rewrite (string_lt_trans a b c).
Qed.

#[global] Instance le_refl : Reflexive le.
Proof. intros p. unfold le. by rewrite compare_refl. Qed.

#[global] Instance le_trans : Transitive le.
Proof.
  intros p q r. unfold le.
  destruct (compare p q) eqn:Hpq; [|..|done].
  { by apply compare_eq in Hpq as ->. }
  destruct (compare q r) eqn:Hqr; [|..|done].
  { apply compare_eq in Hqr as <-. by rewrite Hpq. }
  by rewrite (compare_lt_trans p q r).
Qed.

#[global] Instance le_antisym : AntiSymm (=) le.
Proof.
  intros p q. unfold le. rewrite (compare_antisym q p).
  destruct (compare p q) eqn:Hpq; simpl; try done.
  intros _ _. by apply compare_eq.
Qed.

#[global] Instance le_total : Total le.
Proof.
  intros p q. unfold le. rewrite (compare_antisym q p).
  destruct (compare p q); simpl; auto.
Qed.

(** Sorting forgets the order in which the entries were listed. *)
Lemma sorted_perm (l1 l2 : list path) : l1 ≡ₚ l2 -> sorted l1 = sorted l2.
Proof.
  intros Hp. unfold sorted.
  apply (Sorted_unique le); try apply Sorted_merge_sort; try apply _.
  by rewrite !merge_sort_Permutation.
Qed.

Lemma sorted_Sorted (l : list path) : Sorted le (sorted l).
Proof. apply Sorted_merge_sort, _. Qed.

Lemma sorted_Permutation (l : list path) : sorted l ≡ₚ l.
Proof. apply merge_sort_Permutation. Qed.

(** The order is the one of the lists of parts, not the one of the
    strings: [a/b] comes before [a.b], while its string comes after. *)
Remark order_by_parts :
  compare ["a"; "b"] ["a.b"] = Lt /\
  String.compare (str ["a"; "b"]) (str ["a.b"]) = Gt.
Proof. by vm_compute. Qed.

End PathOrder.

(** ** Facts about the string functions *)

Module StrFacts.

Lemma app_nil_l (s : string) : "" +:+ s = s.
Proof. reflexivity. Qed.

Lemma app_cons (c : ascii) (a b : string) : String c a +:+ b = String c (a +:+ b).
Proof. reflexivity. Qed.

Lemma app_nil_r (s : string) : s +:+ "" = s.
Proof. induction s as [|c s IH]; [done|]. by rewrite app_cons, IH. Qed.

Lemma app_assoc (a b c : string) : (a +:+ b) +:+ c = a +:+ (b +:+ c).
Proof. induction a as [|x a IH]; [done|]. by rewrite !app_cons, IH. Qed.

Lemma app_length (a b : string) :
  String.length (a +:+ b) = String.length a + String.length b.
Proof. induction a as [|x a IH]; [done|]. rewrite app_cons. simpl. by rewrite IH. Qed.

Lemma prefix_nil_l (s : string) : String.prefix "" s = true.
Proof. by destruct s. Qed.

Lemma prefix_nil_r (a : ascii) (p : string) : String.prefix (String a p) "" = false.
Proof. reflexivity. Qed.

Lemma prefix_cons (a b : ascii) (p s : string) :
  String.prefix (String a p) (String b s) =
  if ascii_dec a b then String.prefix p s else false.
Proof. reflexivity. Qed.

Lemma prefix_iff (p s : string) :
  String.prefix p s = true <-> exists r, s = p +:+ r.
Proof.
  revert s; induction p as [|a p IH]; intros [|b s];
    rewrite ?prefix_nil_l, ?prefix_nil_r, ?prefix_cons.
  - split; [by exists ""|done].
  - split; [by exists (String b s)|done].
  - split; [done|by intros [r Hr]].
  - destruct (ascii_dec a b) as [->|Hne].
    + rewrite IH. split; intros [r Hr]; exists r; [by rewrite Hr|].
      rewrite app_cons in Hr. by inversion Hr.
    + split; [done|]. intros [r Hr]. rewrite app_cons in Hr. by inversion Hr.
Qed.

Lemma contains_nil (p : string) : Py.contains p "" = String.prefix p "".
Proof. unfold Py.contains. by rewrite orb_false_r. Qed.

Lemma contains_cons (p : string) (c : ascii) (s : string) :
  Py.contains p (String c s) = String.prefix p (String c s) || Py.contains p s.
Proof. reflexivity. Qed.

Lemma contains_iff (p s : string) :
  Py.contains p s = true <-> exists a b, s = a +:+ p +:+ b.
Proof.
  induction s as [|c s IH].
  - rewrite contains_nil, prefix_iff. split.
    + intros [r Hr]. by exists "", r.
    + intros [a [b Hab]]. destruct a; [by exists b|done].
  - rewrite contains_cons, orb_true_iff, prefix_iff, IH. split.
    + intros [[r Hr]|[a [b Hab]]]; [by exists "", r|].
      exists (String c a), b. by rewrite app_cons, Hab.
    + intros [a [b Hab]]. destruct a as [|x a]; [left; by exists b|].
      right. exists a, b. rewrite app_cons in Hab. by inversion Hab.
Qed.

Lemma contains_app_l (p a b : string) :
  Py.contains p (a +:+ b) = false -> Py.contains p a = false.
Proof.
  intros H. apply not_true_is_false. intros [x [y Hxy]]%contains_iff.
  apply not_true_iff_false in H. apply H, contains_iff.
  exists x, (y +:+ b). by rewrite Hxy, !app_assoc.
Qed.

Lemma contains_app_r (p a b : string) :
  Py.contains p (a +:+ b) = false -> Py.contains p b = false.
Proof.
  intros H. apply not_true_is_false. intros [x [y Hxy]]%contains_iff.
  apply not_true_iff_false in H. apply H, contains_iff.
  exists (a +:+ x), y. by rewrite Hxy, !app_assoc.
Qed.

(** *** Removing the marker *)

Abbreviation unmark := (Py.replace ".nogz" "").

Lemma replace_go_0 (old new : string) (c : ascii) (s : string) :
  Py.replace_go old new 0 (String c s) =
  if String.prefix old (String c s)
  then new +:+ Py.replace_go old new (String.length old - 1) s
  else String c (Py.replace_go old new 0 s).
Proof. reflexivity. Qed.

Lemma replace_go_skip (old new : string) (k : nat) (s : string) :
  Py.replace_go old new k s = Py.replace old new (Py.drop k s).
Proof.
  revert s; induction k as [|k IH]; intros [|c s]; try done. apply IH.
Qed.

Lemma unmark_cons (c : ascii) (s : string) :
  unmark (String c s) =
  if String.prefix ".nogz" (String c s) then unmark (Py.drop 4 s)
  else String c (unmark s).
Proof.
  unfold Py.replace at 1. rewrite replace_go_0.
  destruct (String.prefix ".nogz" (String c s)); [|done].
  by rewrite app_nil_l, replace_go_skip.
Qed.

(** A string without the marker is left as it is. *)
Lemma unmark_free (s : string) : Py.contains ".nogz" s = false -> unmark s = s.
Proof.
  induction s as [|c s IH]; [done|].
  intros H. rewrite unmark_cons.
  rewrite contains_cons in H.
  apply orb_false_iff in H as [-> H]. by rewrite IH.
Qed.

(** An occurrence of the marker that starts in [a] ends in [a]: the
    marker has its only dot in front. *)
Lemma marker_no_straddle (c : ascii) (a b : string) :
  String.prefix ".nogz" (String c a +:+ ".nogz" +:+ b) =
  String.prefix ".nogz" (String c a).
Proof.
  rewrite app_cons, !prefix_cons. destruct (ascii_dec "." c) as [<-|]; [|done].
  destruct a as [|c1 a]; [done|].
  rewrite app_cons, !prefix_cons. destruct (ascii_dec "n" c1) as [<-|]; [|done].
  destruct a as [|c2 a]; [done|].
  rewrite app_cons, !prefix_cons. destruct (ascii_dec "o" c2) as [<-|]; [|done].
  destruct a as [|c3 a]; [done|].
  rewrite app_cons, !prefix_cons. destruct (ascii_dec "g" c3) as [<-|]; [|done].
  destruct a as [|c4 a]; [done|].
  rewrite app_cons, !prefix_cons. destruct (ascii_dec "z" c4) as [<-|]; [|done].
  by rewrite !prefix_nil_l.
Qed.

Lemma drop_app (n : nat) (a b : string) :
  n <= String.length a -> Py.drop n (a +:+ b) = Py.drop n a +:+ b.
Proof.
  revert a; induction n as [|n IH]; intros a Hn; [done|].
  destruct a as [|c a]; simpl in *; [lia|]. apply IH. lia.
Qed.

Lemma prefix_length (p s : string) :
  String.prefix p s = true -> String.length p <= String.length s.
Proof. intros [r ->]%prefix_iff. rewrite app_length. lia. Qed.

(** Every occurrence of the marker is removed: one more occurrence
    between [a] and [b] leaves no trace in the result. *)
Lemma unmark_marker (a b : string) :
  unmark (a +:+ ".nogz" +:+ b) = unmark a +:+ unmark b.
Proof.
  remember (String.length a) as n eqn:Hn. revert a Hn.
  induction n as [n IH] using lt_wf_ind. intros a Hn.
  destruct a as [|c a].
  { change ("" +:+ ".nogz" +:+ b) with (String "." ("nogz" +:+ b)).
    rewrite unmark_cons.
    replace (String.prefix ".nogz" (String "." ("nogz" +:+ b))) with true; [done|].
    symmetry. apply prefix_iff. by exists b. }
  change (String c a +:+ ".nogz" +:+ b) with (String c (a +:+ ".nogz" +:+ b)).
  rewrite !unmark_cons.
  change (String c (a +:+ ".nogz" +:+ b)) with (String c a +:+ ".nogz" +:+ b).
  rewrite marker_no_straddle.
  destruct (String.prefix ".nogz" (String c a)) eqn:Hp.
  - apply prefix_length in Hp. simpl in Hp, Hn.
    rewrite drop_app by lia.
    apply (IH (String.length (Py.drop 4 a))); [|done].
    clear -Hn Hp. subst n.
    assert (forall k s, String.length (Py.drop k s) <= String.length s) as Hd.
    { induction k; intros [|??]; simpl; try lia. specialize (IHk s). lia. }
    specialize (Hd 4 a). lia.
  - rewrite (app_cons c (unmark a)). f_equal.
    apply (IH (String.length a)); [simpl in Hn; lia|done].
Qed.

End StrFacts.

(** ** Facts about suffixes and extensions *)

Module SuffixFacts.

Import StrFacts.

Lemma rfind_cons (c x : ascii) (s : string) :
  Py.rfind c (String x s) =
  if (0 <=? Py.rfind c s)%Z then (Py.rfind c s + 1)%Z
  else if Ascii.eqb x c then 0%Z else (-1)%Z.
Proof. reflexivity. Qed.

Lemma rfind_bounds (c : ascii) (s : string) :
  (-1 <= Py.rfind c s < Z.of_nat (String.length s))%Z.
Proof.
  induction s as [|x s IH]; [simpl; lia|].
  rewrite rfind_cons. simpl String.length.
  destruct (Z.leb_spec 0 (Py.rfind c s)); [lia|].
  destruct (Ascii.eqb x c); lia.
Qed.

Lemma rfind_app (c : ascii) (a b : string) :
  Py.rfind c (a +:+ b) =
  if (0 <=? Py.rfind c b)%Z then (Z.of_nat (String.length a) + Py.rfind c b)%Z
  else Py.rfind c a.
Proof.
  induction a as [|x a IH].
  - rewrite app_nil_l. simpl. pose proof (rfind_bounds c b).
    destruct (Z.leb_spec 0 (Py.rfind c b)); lia.
  - rewrite app_cons, !rfind_cons, IH. simpl String.length.
    destruct (Z.leb_spec 0 (Py.rfind c b)) as [Hb|Hb].
    + destruct (Z.leb_spec 0 (Z.of_nat (String.length a) + Py.rfind c b)); lia.
    + done.
Qed.

Lemma drop_length_app (a b : string) : Py.drop (String.length a) (a +:+ b) = b.
Proof. induction a as [|x a IH]; [by destruct b|]. by rewrite app_cons. Qed.

Lemma drop_split (i : nat) (s : string) :
  i <= String.length s ->
  exists stem, s = stem +:+ Py.drop i s /\ String.length stem = i.
Proof.
  revert s; induction i as [|i IH]; intros s Hi.
  - by exists "".
  - destruct s as [|x s]; simpl in Hi; [lia|].
    destruct (IH s) as [stem [Hs Hl]]; [lia|].
    exists (String x stem). rewrite app_cons. simpl. by rewrite <- Hs, Hl.
Qed.

(** Lowering a character neither makes nor unmakes a dot. *)
Lemma lower_ascii_dot (c : ascii) : Ascii.eqb (Py.lower_ascii c) "." = Ascii.eqb c ".".
Proof. by destruct c as [[] [] [] [] [] [] [] []]. Qed.

Lemma rfind_lower (s : string) : Py.rfind "." (Py.lower s) = Py.rfind "." s.
Proof.
  induction s as [|x s IH]; [done|].
  simpl Py.lower. by rewrite !rfind_cons, IH, lower_ascii_dot.
Qed.

Lemma length_lower (s : string) : String.length (Py.lower s) = String.length s.
Proof. induction s as [|x s IH]; simpl; [done|]. by rewrite IH. Qed.

Lemma lower_app (a b : string) : Py.lower (a +:+ b) = Py.lower a +:+ Py.lower b.
Proof. induction a as [|x a IH]; [done|]. rewrite !app_cons. simpl. by rewrite IH, app_cons. Qed.

(** What the supported extensions have in common: the dot in front is
    their only one, and something follows it. *)
Lemma supported_shape (ext : string) :
  Py.lower ext ∈ Prepare.SUPPORTED_EXTENSIONS ->
  Py.rfind "." ext = 0%Z /\ 2 <= String.length ext.
Proof.
  intros Hin. rewrite <- rfind_lower, <- length_lower.
  unfold Prepare.SUPPORTED_EXTENSIONS in Hin.
  repeat (apply elem_of_cons in Hin as [-> | Hin]; [simpl; split; [done|lia]|]).
  by apply elem_of_nil in Hin.
Qed.

Lemma suffix_app_ext (stem ext : string) :
  stem <> "" -> Py.lower ext ∈ Prepare.SUPPORTED_EXTENSIONS ->
  PathLib.suffix (stem +:+ ext) = ext.
Proof.
  intros Hstem [Hr Hl]%supported_shape. unfold PathLib.suffix. cbv zeta.
  rewrite rfind_app, Hr, app_length, Z.leb_refl.
  assert (0 < String.length stem) by (destruct stem; [done|simpl; lia]).
  rewrite Z.add_0_r, Nat2Z.id, drop_length_app.
  destruct (Z.ltb_spec 0 (Z.of_nat (String.length stem))); [|lia].
  destruct (Z.ltb_spec (Z.of_nat (String.length stem))
              (Z.of_nat (String.length stem + String.length ext) - 1)); [done|lia].
Qed.

Lemma suffix_split (n : string) :
  PathLib.suffix n <> "" ->
  exists stem, n = stem +:+ PathLib.suffix n /\ stem <> "".
Proof.
  unfold PathLib.suffix. cbv zeta. pose proof (rfind_bounds "." n) as Hb.
  destruct (Z.ltb_spec 0 (Py.rfind "." n)) as [Hpos|]; [|done].
  destruct (Z.ltb_spec (Py.rfind "." n) (Z.of_nat (String.length n) - 1)); [|done].
  intros _. simpl andb. cbv iota.
  destruct (drop_split (Z.to_nat (Py.rfind "." n)) n) as [stem [Hs Hl]]; [lia|].
  exists stem. split; [done|]. intros ->. simpl in Hl. lia.
Qed.

(** [supported] looks at the last extension only, whatever its case. *)
Lemma supported_iff (f : PathLib.path) :
  Prepare.supported f = true <->
  exists stem ext, PathLib.name f = stem +:+ ext /\ stem <> "" /\
                   Py.lower ext ∈ Prepare.SUPPORTED_EXTENSIONS.
Proof.
  unfold Prepare.supported. rewrite bool_decide_eq_true. split.
  - intros Hin.
    destruct (suffix_split (PathLib.name f)) as [stem [Hs Hne]].
    { intros Heq. rewrite Heq in Hin. simpl in Hin.
      unfold Prepare.SUPPORTED_EXTENSIONS in Hin.
      repeat (apply elem_of_cons in Hin as [Hin | Hin]; [done|]).
      by apply elem_of_nil in Hin. }
    by exists stem, (PathLib.suffix (PathLib.name f)).
  - intros [stem [ext [-> [Hne Hin]]]]. by rewrite suffix_app_ext.
Qed.

(** *** The marker test *)

Lemma is_nogz_iff (filename : string) :
  Prepare.is_nogz filename = true <->
  exists a b, filename = a +:+ ".nogz." +:+ b.
Proof. apply contains_iff. Qed.

End SuffixFacts.

(** ** The fingerprint of [data/] *)

Module UploadFacts.

Import PathLib Fs PathOrder.

Lemma listing_lists_every_entry : lists_every_entry listing.
Proof. by intros t. Qed.

Lemma reverse_listing_lists_every_entry :
  lists_every_entry (fun t => reverse (listing t)).
Proof. intros t. apply reverse_Permutation. Qed.

Section Listing.

Variable rglob : tree -> list path.
Hypothesis rglob_lists : lists_every_entry rglob.

Lemma elem_of_rglob (t : tree) (f : path) : f ∈ rglob t <-> is_Some (t !! f).
Proof.
  rewrite (rglob_lists t), list_elem_of_fmap. split.
  - intros [[k v] [-> Hkv]]. apply elem_of_map_to_list in Hkv. by exists v.
  - intros [v Hv]. exists (f, v). split; [done|]. by apply elem_of_map_to_list.
Qed.

Lemma NoDup_rglob (t : tree) : NoDup (rglob t).
Proof. rewrite (rglob_lists t). apply NoDup_fst_map_to_list. Qed.

Lemma rglob_nil (t : tree) : rglob t = [] <-> t = ∅.
Proof.
  rewrite <- map_to_list_empty_iff. split.
  - intros Hnil. pose proof (rglob_lists t) as Hp. rewrite Hnil in Hp.
    apply Permutation_nil_l in Hp. symmetry in Hp. by apply fmap_nil_inv in Hp.
  - intros Hnil. pose proof (rglob_lists t) as Hp. rewrite Hnil in Hp.
    by apply Permutation_nil_r in Hp.
Qed.

Lemma any_path_rglob (t : tree) : any_path (rglob t) = true <-> t <> ∅.
Proof.
  rewrite <- rglob_nil. by destruct (rglob t).
Qed.

End Listing.

(** What the loop of [compute_data_hash] has fed to the hash after the
    entries [l]. *)
Lemma fold_feed (d : slot) (l : list path) (h : Sha256.hasher) :
  fold_left (Upload.feed d) l h =
  h ++ flat_map (fun f => Py.encode (str f) ++ read_bytes d f)
                (filter (fun f => file_in d f = true) l).
Proof.
  revert h; induction l as [|f l IH]; intros h; cbn [fold_left].
  - by rewrite app_nil_r.
  - rewrite IH, filter_cons. unfold Upload.feed, Sha256.update.
    destruct (file_in d f) eqn:Hf.
    + rewrite decide_True by done. cbn [flat_map]. by rewrite <- !app_assoc.
    + by rewrite decide_False by done.
Qed.

Lemma Sorted_filter_le (P : path -> Prop) `{forall f, Decision (P f)} (l : list path) :
  Sorted le l -> Sorted le (filter P l).
Proof.
  intros Hs. apply Sorted_StronglySorted in Hs; [|apply _].
  apply StronglySorted_Sorted.
  induction Hs as [|f l Hs IH Hall]; [constructor|].
  rewrite filter_cons. destruct (decide (P f)); [|done].
  constructor; [done|].
  apply Forall_forall. intros g [_ Hg]%list_elem_of_filter.
  by eapply Forall_forall in Hall.
Qed.

(** The hex digest is 64 characters long, so never the empty string. *)
Lemma hexdigest_length (h : Sha256.hasher) :
  String.length (Sha256.hexdigest h) = 64.
Proof. reflexivity. Qed.

Lemma text_of_hexdigest_not_nil (h : Sha256.hasher) :
  Py.text_of (Sha256.hexdigest h) <> [].
Proof. done. Qed.

End UploadFacts.

(** ** The change-gated uploader *)

Module UploadGate.

Import PathLib Fs PathOrder UploadFacts.

(** The fingerprint does not depend on the listing. *)
Lemma hash_any_listing (rglob1 rglob2 : tree -> list path) (d : slot) :
  lists_every_entry rglob1 -> lists_every_entry rglob2 ->
  Upload.compute_data_hash rglob1 d = Upload.compute_data_hash rglob2 d.
Proof.
  intros H1 H2. unfold Upload.compute_data_hash.
  destruct d as [|c|t]; try done. simpl.
  by rewrite (sorted_perm (rglob1 t) (rglob2 t)) by (by rewrite (H1 t), (H2 t)).
Qed.

(** C4: for a fixed canonical tree the fingerprint is the SHA-256 hex
    digest of one byte stream, the relative path and then the bytes of
    every file in increasing order of path, whatever the order in which the
    directory is listed; two computations give the same digest. *)
Theorem fingerprint_deterministic (rglob1 rglob2 : tree -> list path) (t : tree) :
  lists_every_entry rglob1 -> lists_every_entry rglob2 ->
  exists files : list path,
    (forall f, f ∈ files <-> file_in (Folder t) f = true) /\
    Sorted le files /\ NoDup files /\
    Upload.compute_data_hash rglob1 (Folder t) =
      Sha256.hexdigest
        (flat_map (fun f => Py.encode (str f) ++ read_bytes (Folder t) f) files) /\
    Upload.compute_data_hash rglob2 (Folder t) =
      Upload.compute_data_hash rglob1 (Folder t).
Proof.
  intros H1 H2.
  exists (filter (fun f => file_in (Folder t) f = true) (sorted (rglob1 t))).
  split; [|split; [|split; [|split]]].
  - intros f. rewrite list_elem_of_filter, sorted_Permutation, (elem_of_rglob _ H1).
    split; [by intros [? _]|]. intros Hf. split; [done|].
    unfold file_in, is_file, lookup_node in Hf.
    destruct f as [|a f]; [done|]. by destruct (t !! (a :: f)).
  - apply Sorted_filter_le, sorted_Sorted.
  - apply NoDup_filter. rewrite sorted_Permutation. by apply NoDup_rglob.
  - unfold Upload.compute_data_hash. simpl. by rewrite fold_feed.
  - by apply hash_any_listing.
Qed.

Lemma fingerprint_deterministic_witness :
  exists files : list path,
    (forall f, f ∈ files <-> file_in (Folder Samples.two_assets) f = true) /\
    Sorted le files /\ NoDup files /\
    Upload.compute_data_hash listing (Folder Samples.two_assets) =
      Sha256.hexdigest
        (flat_map (fun f => Py.encode (str f) ++ read_bytes (Folder Samples.two_assets) f)
                  files) /\
    Upload.compute_data_hash (fun t => reverse (listing t)) (Folder Samples.two_assets) =
      Upload.compute_data_hash listing (Folder Samples.two_assets).
Proof.
  exact (fingerprint_deterministic listing (fun t => reverse (listing t))
           Samples.two_assets listing_lists_every_entry
           reverse_listing_lists_every_entry).
Defined.

(** The hook on a [data/] directory with entries: the three ways out. *)
Lemma hook_on_content
  (rglob : tree -> list path) (executable PIOENV : string)
  (returncode : list string -> Z) (w : Upload.world) (t : tree) :
  lists_every_entry rglob -> Upload.data w = Folder t -> t <> ∅ ->
  Upload.upload_fs_if_changed rglob executable PIOENV returncode w =
  let current_hash := Upload.compute_data_hash rglob (Upload.data w) in
  if bool_decide (Py.text_of current_hash = Upload.previous_hash w) then
    Upload.World (Upload.data w) (Upload.hash_file w)
      (Upload.stdout w ++ ["LittleFS: Web assets unchanged — skipping filesystem upload"])
      (Upload.stderr w) (Upload.commands w)
  else
    let out := Upload.stdout w ++
                 ["LittleFS: Web assets changed — uploading filesystem image..."] in
    let ran := Upload.commands w ++ [Upload.upload_command executable PIOENV] in
    if (returncode (Upload.upload_command executable PIOENV) =? 0)%Z then
      Upload.World (Upload.data w) (Some (Py.text_of current_hash))
        (out ++ ["LittleFS: Filesystem uploaded successfully"]) (Upload.stderr w) ran
    else
      Upload.World (Upload.data w) (Upload.hash_file w) out
        (Upload.stderr w ++ ["LittleFS: Filesystem upload FAILED!"]) ran.
Proof.
  intros Hl Hd Hne. unfold Upload.upload_fs_if_changed.
  rewrite Hd. unfold exists_, Upload.entries.
  apply (any_path_rglob rglob Hl) in Hne. by rewrite Hne.
Qed.

Lemma renamed_trees_differ : Samples.renamed_before <> Samples.renamed_after.
Proof.
  intros Heq.
  assert (Samples.renamed_before !! ["ab"] = Samples.renamed_after !! ["ab"]) as Hab
    by (by rewrite Heq).
  vm_compute in Hab. discriminate.
Qed.

Lemma renamed_after_not_empty : Samples.renamed_after <> ∅.
Proof.
  intros Heq.
  assert (Samples.renamed_after !! ["ba"] = (∅ : tree) !! ["ba"]) as Hba
    by (by rewrite Heq).
  vm_compute in Hba. discriminate.
Qed.

Lemma renamed_same_hash :
  Upload.compute_data_hash listing (Folder Samples.renamed_after) =
  Upload.compute_data_hash listing (Folder Samples.renamed_before).
Proof. vm_compute. reflexivity. Qed.

(** A text without whitespace at its ends is its own strip. *)
Lemma strip_id (t : Py.text) :
  (forall c, head t = Some c -> Py.isspace c = false) ->
  (forall c, last t = Some c -> Py.isspace c = false) ->
  Py.strip t = t.
Proof.
  intros Hh Hl. unfold Py.strip.
  assert (Hfix : forall u : Py.text,
             (forall c, head u = Some c -> Py.isspace c = false) -> Py.lstrip u = u).
  { intros [|c u] Hu; [done|]. simpl. by rewrite (Hu c). }
  rewrite (Hfix t Hh), Hfix, reverse_involutive; [done|].
  intros c. rewrite head_reverse. apply Hl.
Qed.

Lemma hex_digit_not_space (x : Z) :
  Py.isspace (N_of_ascii (Sha256.hex_digit (x mod 16))) = false.
Proof.
  assert (0 <= x mod 16 < 16)%Z as Hx by (apply Z.mod_pos_bound; lia).
  assert (Hcases : Forall (fun v => Py.isspace (N_of_ascii (Sha256.hex_digit v)) = false)
                     (map Z.of_nat (seq 0 16))).
  { by repeat constructor. }
  rewrite Forall_forall in Hcases. apply Hcases.
  apply list_elem_of_fmap. exists (Z.to_nat (x mod 16)). split; [lia|].
  apply list_elem_of_In, in_seq. lia.
Qed.

Lemma hexdigest_no_space (h : Sha256.hasher) :
  Forall (fun c => Py.isspace c = false) (Py.text_of (Sha256.hexdigest h)).
Proof.
  unfold Sha256.hexdigest, Sha256.hex, Sha256.hex_word, Py.text_of.
  cbn [list_ascii_of_string map].
  repeat (constructor; [apply hex_digit_not_space|]). constructor.
Qed.

Lemma strip_text_of_hexdigest (h : Sha256.hasher) :
  Py.strip (Py.text_of (Sha256.hexdigest h)) = Py.text_of (Sha256.hexdigest h).
Proof.
  pose proof (hexdigest_no_space h) as Hall. rewrite Forall_forall in Hall.
  apply strip_id; intros c Hc; apply Hall.
  - by apply head_Some_elem_of.
  - by apply last_Some_elem_of.
Qed.

Lemma strip_text_of_hash (rglob : tree -> list path) (d : slot) :
  exists_ d = true ->
  Py.strip (Py.text_of (Upload.compute_data_hash rglob d)) =
  Py.text_of (Upload.compute_data_hash rglob d).
Proof.
  intros Hd. unfold Upload.compute_data_hash. rewrite Hd. apply strip_text_of_hexdigest.
Qed.

(** C3: the fingerprint misses a rename.  With the empty files [ab] and
    [aba] in [data/], renaming [ab] to [ba] gives another tree with the
    same fingerprint, because the paths and bytes are fed to the hash
    with nothing between them: both trees feed [ababa].  The hook then
    takes the assets for unchanged and runs no upload. *)
Theorem fingerprint_misses_rename
  (rglob : tree -> list path) (executable PIOENV : string) (returncode : list string -> Z) :
  lists_every_entry rglob ->
  Samples.renamed_before <> Samples.renamed_after /\
  Upload.compute_data_hash rglob (Folder Samples.renamed_before) =
    Upload.compute_data_hash rglob (Folder Samples.renamed_after) /\
  forall out err ran,
    Upload.commands
      (Upload.upload_fs_if_changed rglob executable PIOENV returncode
         (Upload.World (Folder Samples.renamed_after)
            (Some (Py.text_of (Upload.compute_data_hash rglob
                                 (Folder Samples.renamed_before))))
            out err ran)) = ran.
Proof.
  intros Hl.
  assert (Hh : Upload.compute_data_hash rglob (Folder Samples.renamed_after) =
               Upload.compute_data_hash rglob (Folder Samples.renamed_before)).
  { rewrite !(hash_any_listing rglob listing) by (done || apply listing_lists_every_entry).
    apply renamed_same_hash. }
  split; [apply renamed_trees_differ|]. split; [done|].
  intros out err ran.
  erewrite hook_on_content; [|done|reflexivity|apply renamed_after_not_empty].
  cbv zeta. unfold Upload.previous_hash.
  cbn [Upload.data Upload.hash_file Upload.commands Upload.stdout Upload.stderr].
  rewrite Hh, strip_text_of_hash by done.
  by rewrite bool_decide_eq_true_2.
Qed.

Lemma fingerprint_misses_rename_witness :
  Samples.renamed_before <> Samples.renamed_after /\
  Upload.compute_data_hash listing (Folder Samples.renamed_before) =
    Upload.compute_data_hash listing (Folder Samples.renamed_after) /\
  forall out err ran,
    Upload.commands
      (Upload.upload_fs_if_changed listing "python" "esp32" (fun _ => 0%Z)
         (Upload.World (Folder Samples.renamed_after)
            (Some (Py.text_of (Upload.compute_data_hash listing
                                 (Folder Samples.renamed_before))))
            out err ran)) = ran.
Proof.
  exact (fingerprint_misses_rename listing "python" "esp32" (fun _ => 0%Z)
           listing_lists_every_entry).
Defined.

Lemma text_of_hash_not_nil (rglob : tree -> list path) (d : slot) :
  exists_ d = true ->
  Py.text_of (Upload.compute_data_hash rglob d) <> Py.text_of "".
Proof.
  intros Hd. unfold Upload.compute_data_hash. rewrite Hd.
  exact (text_of_hexdigest_not_nil _).
Qed.

Lemma two_assets_not_empty : Samples.two_assets <> ∅.
Proof.
  intros Heq.
  assert (Samples.two_assets !! ["b.bin"] = (∅ : tree) !! ["b.bin"]) as Hb
    by (by rewrite Heq).
  vm_compute in Hb. discriminate.
Qed.



(** C2: when the upload command exits with a non-zero status the state
    file is left as it was; the run that issued the command has written
    the failure to the error stream, and the hook has returned its world:
    it has no way out that raises. *)
Theorem failure_keeps_state
  (rglob : tree -> list path) (executable PIOENV : string)
  (returncode : list string -> Z) (w : Upload.world) :
  returncode (Upload.upload_command executable PIOENV) <> 0%Z ->
  let w' := Upload.upload_fs_if_changed rglob executable PIOENV returncode w in
  Upload.hash_file w' = Upload.hash_file w /\
  Upload.data w' = Upload.data w /\
  (Upload.commands w' = Upload.commands w ++ [Upload.upload_command executable PIOENV] ->
   Upload.stderr w' = Upload.stderr w ++ ["LittleFS: Filesystem upload FAILED!"]) /\
  (Upload.commands w' = Upload.commands w -> Upload.stderr w' = Upload.stderr w).
Proof.
  intros Hrc. cbv zeta. unfold Upload.upload_fs_if_changed.
  assert (Hsnoc : forall (l : list (list string)) x, l ++ [x] <> l).
  { intros l x Heq. apply (f_equal length) in Heq. rewrite length_app in Heq.
    simpl in Heq. lia. }
  apply Z.eqb_neq in Hrc. rewrite Hrc.
  destruct (negb (exists_ (Upload.data w)) ||
            negb (any_path (Upload.entries rglob (Upload.data w)))).
  { cbn. repeat split; try done. intros Heq. symmetry in Heq. by apply Hsnoc in Heq. }
  cbv zeta.
  destruct (bool_decide (Py.text_of (Upload.compute_data_hash rglob (Upload.data w)) =
                         Upload.previous_hash w)).
  { cbn. repeat split; try done. intros Heq. symmetry in Heq. by apply Hsnoc in Heq. }
  cbn. repeat split; try done. intros Heq. by apply Hsnoc in Heq.
Qed.

Lemma failure_keeps_state_witness :
  let w := Upload.World (Folder Samples.two_assets) None [] [] [] in
  let w' := Upload.upload_fs_if_changed listing "python" "esp32" (fun _ => 1%Z) w in
  Upload.hash_file w' = Upload.hash_file w /\
  Upload.data w' = Upload.data w /\
  (Upload.commands w' = Upload.commands w ++ [Upload.upload_command "python" "esp32"] ->
   Upload.stderr w' = Upload.stderr w ++ ["LittleFS: Filesystem upload FAILED!"]) /\
  (Upload.commands w' = Upload.commands w -> Upload.stderr w' = Upload.stderr w).
Proof.
  apply (failure_keeps_state listing "python" "esp32" (fun _ => 1%Z)
           (Upload.World (Folder Samples.two_assets) None [] [] [])).
  discriminate.
Defined.

End UploadGate.

(** ** The asset preparer: runs of the script *)

Module PrepareFacts.

Import PathLib Fs PathOrder UploadFacts.

Lemma existsb_Permutation {A} (p : A -> bool) (l1 l2 : list A) :
  l1 ≡ₚ l2 -> existsb p l1 = existsb p l2.
Proof.
  induction 1 as [|x l1 l2 _ IH|x y l|l1 l2 l3 _ IH1 _ IH2]; simpl.
  - done.
  - by rewrite IH.
  - by destruct (p x), (p y).
  - by rewrite IH1.
Qed.

Lemma filter_Permutation_bool {A} (p : A -> bool) (l1 l2 : list A) :
  l1 ≡ₚ l2 -> List.filter p l1 ≡ₚ List.filter p l2.
Proof.
  induction 1 as [|x l1 l2 _ IH|x y l|l1 l2 l3 _ IH1 _ IH2]; simpl.
  - done.
  - destruct (p x); by rewrite IH.
  - destruct (p x), (p y); try done. apply perm_swap.
  - by rewrite IH1.
Qed.

Lemma any_path_Permutation (l1 l2 : list path) :
  l1 ≡ₚ l2 -> any_path l1 = any_path l2.
Proof.
  intros Hp. destruct l1 as [|x l1], l2 as [|y l2]; try done.
  - by apply Permutation_nil_cons in Hp.
  - symmetry in Hp. by apply Permutation_nil_cons in Hp.
Qed.

Section Listings.

Variables rglob1 rglob2 : tree -> list path.
Hypothesis lists1 : lists_every_entry rglob1.
Hypothesis lists2 : lists_every_entry rglob2.
Variable gzip_compress : Z -> Z -> list byte -> list byte.

Lemma rglob_Permutation (t : tree) : rglob1 t ≡ₚ rglob2 t.
Proof. by rewrite (lists1 t), (lists2 t). Qed.

Lemma entries_Permutation (d : slot) :
  Prepare.entries rglob1 d ≡ₚ Prepare.entries rglob2 d.
Proof. destruct d; try done. apply rglob_Permutation. Qed.

Lemma has_files_listing (w : Prepare.world) :
  Prepare.has_files rglob1 w = Prepare.has_files rglob2 w.
Proof.
  unfold Prepare.has_files. f_equal.
  apply existsb_Permutation, entries_Permutation.
Qed.

Lemma has_content_listing (d : slot) :
  Prepare.has_content rglob1 d = Prepare.has_content rglob2 d.
Proof.
  unfold Prepare.has_content. f_equal.
  apply any_path_Permutation, entries_Permutation.
Qed.

Lemma prepare_listing (w : Prepare.world) :
  Prepare.prepare rglob1 gzip_compress w = Prepare.prepare rglob2 gzip_compress w.
Proof.
  unfold Prepare.prepare.
  rewrite (sorted_perm _ _ (entries_Permutation (Prepare.build w))).
  destruct (Prepare.build w) as [|c|t]; try done.
  unfold Prepare.iterdir.
  by rewrite (sorted_perm _ _ (filter_Permutation_bool _ _ _ (rglob_Permutation t))).
Qed.

(** A run does not depend on the order in which the directories are
    listed. *)
Lemma script_listing (w : Prepare.world) :
  Prepare.script rglob1 gzip_compress w = Prepare.script rglob2 gzip_compress w.
Proof.
  unfold Prepare.script.
  by rewrite has_files_listing, has_content_listing, prepare_listing.
Qed.

End Listings.

Section Runs.

Variable rglob : tree -> list path.
Hypothesis rglob_lists : lists_every_entry rglob.
Variable gzip_compress : Z -> Z -> list byte -> list byte.

(** [has_files] says that the build directory holds a supported file. *)
Lemma has_files_iff (w : Prepare.world) :
  Prepare.has_files rglob w = true <->
  exists f, file_in (Prepare.build w) f = true /\ Prepare.supported f = true.
Proof.
  unfold Prepare.has_files. rewrite andb_true_iff, existsb_exists. split.
  - intros [_ [f [_ Hf]]]. exists f. by apply andb_true_iff in Hf.
  - intros [f [Hfile Hsup]].
    destruct (Prepare.build w) as [|c|t] eqn:Hb; try done.
    split; [done|]. exists f. split; [|by rewrite Hfile, Hsup].
    apply list_elem_of_In, (elem_of_rglob rglob rglob_lists).
    unfold file_in, is_file, lookup_node in Hfile.
    destruct f as [|a f]; [done|]. by destruct (t !! (a :: f)).
Qed.

Lemma has_content_iff (d : slot) :
  Prepare.has_content rglob d = true <-> exists t, d = Folder t /\ t <> ∅.
Proof.
  unfold Prepare.has_content. destruct d as [|c|t]; simpl.
  - split; [done|]. by intros [t [? _]].
  - split; [done|]. by intros [t [? _]].
  - rewrite (any_path_rglob rglob rglob_lists). split.
    + intros Hne. by exists t.
    + intros [t' [Heq Hne]]. by injection Heq as ->.
Qed.

(** What a run of [prepare] that returns has done. *)
Lemma prepare_inr (w w' : Prepare.world) :
  Prepare.prepare rglob gzip_compress w = inr w' ->
  exists t r,
    Prepare.build w = Folder t /\
    (forall c, Prepare.data w <> Regular c) /\
    for_each (Prepare.process gzip_compress (Prepare.build w))
             (sorted (rglob t)) (∅, 0) = inr r /\
    Prepare.data w' = Folder r.1 /\
    Prepare.stdout w' = Prepare.stdout w ++
      [String.append "LittleFS: Prepared "
         (String.append (pretty r.2) " web assets in data/")] /\
    Prepare.stderr w' = Prepare.stderr w.
Proof.
  unfold Prepare.prepare. intros Hrun.
  destruct (Prepare.data w) as [|c|d] eqn:Hd; [|done|].
  - destruct (Prepare.build w) as [|c|t] eqn:Hb; cbn in Hrun.
    + done.
    + done.
    + destruct (for_each _ _ _) as [e|r] eqn:Hloop; [done|].
      cbn in Hrun. injection Hrun as <-. by exists t, r.
  - destruct (Prepare.build w) as [|c|t] eqn:Hb; cbn in Hrun.
    + done.
    + done.
    + destruct (for_each _ _ _) as [e|r] eqn:Hloop; [done|].
      cbn in Hrun. injection Hrun as <-. by exists t, r.
Qed.

End Runs.

End PrepareFacts.

(** ** The asset preparer: skipping and repeating a run *)

Module PrepareRuns.

Import PathLib Fs PathOrder UploadFacts PrepareFacts.

(** C7: when the build directory is missing or holds no supported file,
    the script returns without touching either directory; it reports the
    reuse of [data/] on standard output when [data/] has entries, and
    warns on the error stream when it has none or does not exist. *)
Theorem skip_leaves_output
  (rglob : tree -> list path) (gzip_compress : Z -> Z -> list byte -> list byte)
  (w : Prepare.world) :
  lists_every_entry rglob ->
  (forall f, file_in (Prepare.build w) f = true -> Prepare.supported f = false) ->
  exists w',
    Prepare.script rglob gzip_compress w = inr w' /\
    Prepare.build w' = Prepare.build w /\
    Prepare.data w' = Prepare.data w /\
    ((exists t, Prepare.data w = Folder t /\ t <> ∅) ->
     Prepare.stdout w' = Prepare.stdout w ++
       ["No minified files in src/web/build/ — using existing data/ from repository."] /\
     Prepare.stderr w' = Prepare.stderr w) /\
    ((forall t, Prepare.data w = Folder t -> t = ∅) ->
     Prepare.stdout w' = Prepare.stdout w /\
     Prepare.stderr w' = Prepare.stderr w ++
       ["Warning: No minified files found and no pre-built data/ directory.";
        "Install minification tools or restore data/ from the repository."]).
Proof.
  intros Hl Hnone. unfold Prepare.script.
  assert (Prepare.has_files rglob w = false) as ->.
  { apply not_true_is_false. intros [f [Hf Hs]]%(has_files_iff rglob Hl).
    rewrite (Hnone f Hf) in Hs. discriminate. }
  cbn [negb].
  destruct (Prepare.has_content rglob (Prepare.data w)) eqn:Hc.
  - apply (has_content_iff rglob Hl) in Hc as [t [Hd Hne]].
    eexists. split; [reflexivity|].
    split; [done|]. split; [done|]. split; [done|].
    intros Hempty. by specialize (Hempty t Hd).
  - eexists. split; [reflexivity|].
    split; [done|]. split; [done|]. split.
    + intros Hex. apply (has_content_iff rglob Hl) in Hex. congruence.
    + intros _. split; [done|]. cbn. by rewrite <- app_assoc.
Qed.

Lemma skip_leaves_output_witness :
  let w := Prepare.World Missing (Folder Samples.two_assets) [] [] in
  exists w',
    Prepare.script listing Gzip.compress w = inr w' /\
    Prepare.build w' = Prepare.build w /\
    Prepare.data w' = Prepare.data w /\
    ((exists t, Prepare.data w = Folder t /\ t <> ∅) ->
     Prepare.stdout w' = Prepare.stdout w ++
       ["No minified files in src/web/build/ — using existing data/ from repository."] /\
     Prepare.stderr w' = Prepare.stderr w) /\
    ((forall t, Prepare.data w = Folder t -> t = ∅) ->
     Prepare.stdout w' = Prepare.stdout w /\
     Prepare.stderr w' = Prepare.stderr w ++
       ["Warning: No minified files found and no pre-built data/ directory.";
        "Install minification tools or restore data/ from the repository."]).
Proof.
  apply (skip_leaves_output listing Gzip.compress
           (Prepare.World Missing (Folder Samples.two_assets) [] [])).
  - exact listing_lists_every_entry.
  - intros f Hf. discriminate Hf.
Defined.

(** [prepare] on a build directory, when [data/] is no regular file. *)
Lemma prepare_folder
  (rglob : tree -> list path) (gzip_compress : Z -> Z -> list byte -> list byte)
  (w : Prepare.world) (t : tree) :
  Prepare.build w = Folder t -> (forall c, Prepare.data w <> Regular c) ->
  Prepare.prepare rglob gzip_compress w =
  match for_each (Prepare.process gzip_compress (Folder t)) (sorted (rglob t)) (∅, 0) with
  | inl e => inl e
  | inr r =>
      inr (Prepare.print
             (String.append "LittleFS: Prepared "
                (String.append (pretty r.2) " web assets in data/"))
             (Prepare.World
                (Folder (fold_left Prepare.discard
                           (rev (sorted (Prepare.iterdir rglob t))) t))
                (Folder r.1) (Prepare.stdout w) (Prepare.stderr w)))
  end.
Proof.
  intros Hb Hd. unfold Prepare.prepare. rewrite Hb.
  destruct (Prepare.data w) as [|c|d]; [|by destruct (Hd c)|];
    cbn [bind Prepare.entries]; by destruct (for_each _ _ _).
Qed.

(** C8: a second run on the source input of the first run, with [data/]
    as the first run left it, returns and leaves in [data/] the tree the
    first run left, whatever the order in which the directories are listed
    in either run. *)
Theorem prepare_idempotent
  (rglob1 rglob2 : tree -> list path) (gzip_compress : Z -> Z -> list byte -> list byte)
  (w w1 w2 : Prepare.world) :
  lists_every_entry rglob1 -> lists_every_entry rglob2 ->
  Prepare.script rglob1 gzip_compress w = inr w1 ->
  Prepare.build w2 = Prepare.build w -> Prepare.data w2 = Prepare.data w1 ->
  exists w3,
    Prepare.script rglob2 gzip_compress w2 = inr w3 /\
    Prepare.data w3 = Prepare.data w1.
Proof.
  intros H1 H2 Hrun Hb Hd.
  rewrite (script_listing rglob2 rglob1 H2 H1).
  unfold Prepare.script in *.
  assert (Prepare.has_files rglob1 w2 = Prepare.has_files rglob1 w) as ->.
  { unfold Prepare.has_files. by rewrite Hb. }
  destruct (Prepare.has_files rglob1 w) eqn:Hf; cbn [negb] in *.
  - apply (prepare_inr rglob1) in Hrun as Hw1.
    destruct Hw1 as [t [r [Hbt [_ [Hloop [Hd1 _]]]]]].
    rewrite Hbt in Hloop, Hb.
    rewrite (prepare_folder rglob1 gzip_compress w2 t Hb), Hloop
      by (intros c; rewrite Hd, Hd1; discriminate).
    by eexists.
  - assert (Prepare.data w1 = Prepare.data w) as Hsame
      by (destruct (Prepare.has_content rglob1 (Prepare.data w));
          by injection Hrun as <-).
    destruct (Prepare.has_content rglob1 (Prepare.data w2));
      (eexists; split; [reflexivity|exact Hd]).
Qed.

(** The script deletes the entries of the build directory it has gone
    through, except dot entries and [.py] entries with what is below them:
    run again on what it left of [dot_dir], it rebuilds [data/] from the
    file below [.keep] alone. *)
Remark rerun_on_what_is_left :
  exists w1 w2,
    Prepare.script listing Gzip.compress
      (Prepare.World (Folder Samples.dot_dir) Missing [] []) = inr w1 /\
    Prepare.script listing Gzip.compress w1 = inr w2 /\
    Prepare.data w1 =
      Folder (list_to_map
                [(["a.css.gz"], File (Gzip.compress 9%Z 0%Z (Py.encode "a{}")));
                 ([".keep"], Dir);
                 ([".keep"; "x.js.gz"],
                  File (Gzip.compress 9%Z 0%Z (Py.encode "x()")))]) /\
    Prepare.data w2 =
      Folder (list_to_map
                [([".keep"], Dir);
                 ([".keep"; "x.js.gz"],
                  File (Gzip.compress 9%Z 0%Z (Py.encode "x()")))]).
Proof.
  set (w0 := Prepare.World (Folder Samples.dot_dir) Missing [] []).
  set (run := fun w => match Prepare.script listing Gzip.compress w with
                       | inr x => x
                       | inl _ => w
                       end).
  exists (run w0), (run (run w0)).
  repeat split; vm_compute; reflexivity.
Qed.

Lemma prepare_idempotent_witness :
  let w := Prepare.World (Folder Samples.site) (Folder Samples.two_assets) [] [] in
  let w1 := match Prepare.script listing Gzip.compress w with
            | inr x => x
            | inl _ => w
            end in
  let w2 := Prepare.World (Prepare.build w) (Prepare.data w1)
              (Prepare.stdout w1) (Prepare.stderr w1) in
  exists w3,
    Prepare.script (fun t => reverse (listing t)) Gzip.compress w2 = inr w3 /\
    Prepare.data w3 = Prepare.data w1.
Proof.
  intros w w1 w2.
  refine (prepare_idempotent listing (fun t => reverse (listing t)) Gzip.compress
            w w1 w2 listing_lists_every_entry reverse_listing_lists_every_entry
            _ eq_refl eq_refl).
  vm_compute. reflexivity.
Defined.

(** A closed run, computed: the listing is the sample one. *)
Lemma script_computed
  (rglob : tree -> list path) (gzip_compress : Z -> Z -> list byte -> list byte)
  (w w' : Prepare.world) :
  lists_every_entry rglob ->
  Prepare.script listing gzip_compress w = inr w' ->
  Prepare.script rglob gzip_compress w = inr w'.
Proof.
  intros Hl <-. apply script_listing; [done|apply listing_lists_every_entry].
Qed.



End PrepareRuns.

(** ** Names without the marker *)

Module NameFacts.

Import PathLib Fs StrFacts SuffixFacts.

(** A string without [old] is left as it is. *)
Lemma replace_free (old new s : string) :
  Py.contains old s = false -> Py.replace old new s = s.
Proof.
  unfold Py.replace. induction s as [|c s IH]; [done|].
  rewrite contains_cons, replace_go_0. intros [-> H]%orb_false_iff. by rewrite IH.
Qed.

(** A pattern of one character is in [a +:+ b] when it is in [a] or in
    [b]. *)
Lemma contains_char_app (c : ascii) (a b : string) :
  Py.contains (String c "") (a +:+ b) =
  Py.contains (String c "") a || Py.contains (String c "") b.
Proof.
  induction a as [|x a IH].
  - rewrite app_nil_l, contains_nil. done.
  - rewrite app_cons, !contains_cons, IH, !prefix_cons, !prefix_nil_l.
    by rewrite orb_assoc.
Qed.

(** The marker does not end in what starts with a dot. *)
Lemma marker_not_into_dot (c : ascii) (a b : string) :
  String.prefix ".nogz" (String c a +:+ String "." b) =
  String.prefix ".nogz" (String c a).
Proof.
  rewrite app_cons, !prefix_cons. destruct (ascii_dec "." c) as [<-|]; [|done].
  destruct a as [|c1 a]; [done|].
  rewrite app_cons, !prefix_cons. destruct (ascii_dec "n" c1) as [<-|]; [|done].
  destruct a as [|c2 a]; [done|].
  rewrite app_cons, !prefix_cons. destruct (ascii_dec "o" c2) as [<-|]; [|done].
  destruct a as [|c3 a]; [done|].
  rewrite app_cons, !prefix_cons. destruct (ascii_dec "g" c3) as [<-|]; [|done].
  destruct a as [|c4 a]; [done|].
  rewrite app_cons, !prefix_cons. destruct (ascii_dec "z" c4) as [<-|]; [|done].
  by rewrite !prefix_nil_l.
Qed.

Lemma contains_marker_app_dot (a b : string) :
  Py.contains ".nogz" (a +:+ String "." b) =
  Py.contains ".nogz" a || Py.contains ".nogz" (String "." b).
Proof.
  induction a as [|x a IH]; [done|].
  rewrite app_cons, (contains_cons _ x (a +:+ String "." b)), IH, (contains_cons _ x a).
  change (String x (a +:+ String "." b)) with (String x a +:+ String "." b).
  by rewrite marker_not_into_dot, orb_assoc.
Qed.

(** A name that holds [.nogz.] holds [.nogz]. *)
Lemma is_nogz_contains_marker (n : string) :
  Prepare.is_nogz n = true -> Py.contains ".nogz" n = true.
Proof.
  intros [a [b ->]]%is_nogz_iff. apply contains_iff.
  exists a, (String "." b). done.
Qed.

Lemma split_free (c : ascii) (s : string) :
  Py.contains (String c "") s = false -> Py.split c s = [s].
Proof.
  induction s as [|a s IH]; [done|].
  rewrite contains_cons, prefix_cons, prefix_nil_l. intros [Ha Hs]%orb_false_iff.
  cbn [Py.split]. destruct (Ascii.eqb_spec a c) as [->|Hne].
  - by destruct (ascii_dec c c).
  - by rewrite (IH Hs).
Qed.

Lemma startswith_free (c : ascii) (s : string) :
  Py.contains (String c "") s = false -> Py.startswith (String c "") s = false.
Proof.
  unfold Py.startswith. destruct s as [|a s]; [done|].
  rewrite contains_cons. by intros [-> _]%orb_false_iff.
Qed.

(** [data/ / s] for a single name [s] is the entry [s]. *)
Lemma child_name (s : string) :
  Prepare.is_name s = true -> child s = inr [s].
Proof.
  unfold Prepare.is_name, child.
  intros [[[H0 H1]%andb_true_iff H2]%andb_true_iff H3]%andb_true_iff.
  apply negb_true_iff in H0, H1, H2, H3.
  rewrite (split_free "/" s H3), (startswith_free "/" s H3).
  cbn [List.filter]. rewrite H0, H1. cbn [orb negb existsb].
  rewrite String.eqb_sym, H2. done.
Qed.

Lemma is_name_long (s : string) :
  3 <= String.length s -> Py.contains "/" s = false -> Prepare.is_name s = true.
Proof.
  intros Hl Hs. unfold Prepare.is_name. rewrite Hs.
  assert (forall t, String.length t < 3 -> String.eqb s t = false) as Hne.
  { intros t Ht. apply String.eqb_neq. intros ->. lia. }
  by rewrite !Hne by (simpl; lia).
Qed.

End NameFacts.

(** ** The gzip codec decodes what it encodes *)

Module GzipFacts.

Import Gzip.

Local Open Scope Z_scope.

Lemma Z_of_byte_bounds (b : byte) : 0 <= Z_of_byte b < 256.
Proof.
  unfold Z_of_byte. pose proof (Byte.to_N_bounded b). lia.
Qed.

Lemma Z_of_byte_of_Z (x : Z) : Z_of_byte (byte_of_Z x) = x mod 256.
Proof.
  unfold byte_of_Z, Z_of_byte.
  assert (0 <= x mod 256 < 256) as Hx by (apply Z.mod_pos_bound; lia).
  destruct (Byte.of_N (Z.to_N (x mod 256))) as [b|] eqn:Hb.
  - apply Byte.to_of_N in Hb. lia.
  - apply Byte.of_N_None_iff in Hb. lia.
Qed.

Lemma le_value_le_bytes_2 (x : Z) :
  0 <= x < 65536 -> le_value (le_bytes 2 x) = x.
Proof.
  intros Hx. unfold le_bytes. cbn [seq map le_value].
  rewrite !Z_of_byte_of_Z, Z.shiftr_0_r.
  change (8 * Z.of_nat 1) with 8. rewrite Z.shiftr_div_pow2 by lia.
  change (2 ^ 8) with 256.
  rewrite (Z.mod_small (x / 256)) by (split; [apply Z.div_pos; lia|apply Z.div_lt_upper_bound; lia]).
  pose proof (Z.div_mod x 256). lia.
Qed.

Lemma max_stored_value : Z.of_nat max_stored = 65535.
Proof. reflexivity. Qed.

(** Decoding one block. *)
Lemma inflate_block (final : bool) (chunk rest : list byte) (fuel : nat) :
  (length chunk <= max_stored)%nat ->
  inflate_stored (S fuel) (stored_block final chunk ++ rest) =
  if final then Some (chunk, rest)
  else match inflate_stored fuel rest with
       | Some (data, tl) => Some (chunk ++ data, tl)
       | None => None
       end.
Proof.
  intros Hlen. pose proof max_stored_value as Hmax.
  assert (0 <= Z.of_nat (length chunk) < 65536) as Hc by lia.
  assert (0 <= 0xffff - Z.of_nat (length chunk) < 65536) as Hn by lia.
  pose proof (le_value_le_bytes_2 _ Hc) as H1.
  pose proof (le_value_le_bytes_2 _ Hn) as H2.
  unfold stored_block. cbv zeta.
  unfold le_bytes in *. cbn [seq map app] in *.
  cbn [inflate_stored]. cbv zeta. rewrite H1, H2, Z.eqb_refl, Nat2Z.id.
  cbn [negb].
  assert ((length (chunk ++ rest) <? length chunk)%nat = false) as ->.
  { apply Nat.ltb_ge. rewrite length_app. lia. }
  rewrite take_app_length, drop_app_length.
  by destruct final.
Qed.

Lemma inflate_stored_blocks (k : nat) :
  forall (data tl : list byte) (fuel : nat),
    (length data <= S k * max_stored)%nat -> (k < fuel)%nat ->
    inflate_stored fuel (stored_blocks k data ++ tl) = Some (data, tl).
Proof.
  induction k as [|k IH]; intros data tl [|fuel] Hlen Hfuel; try lia.
  - cbn [stored_blocks]. rewrite inflate_block by lia. done.
  - cbn [stored_blocks]. destruct (Nat.leb_spec (length data) max_stored) as [Hle|Hgt].
    + by rewrite inflate_block.
    + rewrite <- app_assoc, inflate_block.
      * rewrite IH; [by rewrite take_drop| |lia].
        rewrite length_drop. lia.
      * rewrite length_take. lia.
Qed.

Lemma length_stored_block (final : bool) (chunk : list byte) :
  length (stored_block final chunk) = (5 + length chunk)%nat.
Proof. unfold stored_block, le_bytes. cbn [seq map app]. by cbn [length]. Qed.

Lemma length_stored_blocks (k : nat) (data : list byte) :
  (length data < length (stored_blocks k data))%nat.
Proof.
  revert data. induction k as [|k IH]; intros data; cbn [stored_blocks].
  - rewrite length_stored_block. lia.
  - destruct (Nat.leb_spec (length data) max_stored) as [Hle|Hgt].
    + rewrite length_stored_block. lia.
    + rewrite length_app, length_stored_block, length_take.
      specialize (IH (drop max_stored data)). rewrite length_drop in IH. lia.
Qed.

(** Decompressing a compressed string gives the string back, for every
    level and time stamp. *)
Lemma decompress_compress (compresslevel mtime : Z) (data : list byte) :
  decompress (compress compresslevel mtime data) = Some data.
Proof.
  unfold compress, le_bytes. cbn [seq map app]. unfold decompress.
  change (map Z_of_byte [x1f; x8b; x08; x00]%byte) with [0x1f; 0x8b; 8; 0].
  rewrite bool_decide_eq_true_2 by done. cbn [negb].
  rewrite inflate_stored_blocks.
  - by rewrite bool_decide_eq_true_2.
  - pose proof max_stored_value. nia.
  - rewrite length_app. pose proof (length_stored_blocks (length data) data). lia.
Qed.

End GzipFacts.

(** ** The asset preparer on one source file *)

Module SingleSource.

Import PathLib Fs PathOrder StrFacts SuffixFacts NameFacts UploadFacts PrepareFacts.

Section Run.

Variable rglob : tree -> list path.
Hypothesis rglob_lists : lists_every_entry rglob.
Variable gzip_compress : Z -> Z -> list byte -> list byte.

Lemma rglob_singleton (k : path) (v : node) : rglob {[k := v]} = [k].
Proof.
  apply Permutation_singleton_r. rewrite (rglob_lists {[k := v]}).
  by rewrite map_to_list_singleton.
Qed.

Lemma lookup_node_empty (m : string) : lookup_node ∅ [m] = None.
Proof. unfold lookup_node. apply lookup_empty. Qed.

(** The build directory holds the one file [n]: the run writes its bytes,
    compressed unless [n] is marked, to the one entry of its
    destination. *)
Lemma run_single (n m : string) (raw : list byte) (d : slot) (out err : list string) :
  (forall c, d <> Regular c) ->
  Prepare.supported [n] = true ->
  child (Prepare.target [n]) = inr [m] ->
  exists w',
    Prepare.script rglob gzip_compress
      (Prepare.World (Folder {[ [n] := File raw ]}) d out err) = inr w' /\
    Prepare.data w' =
      Folder {[ [m] := File (if Prepare.is_nogz n then raw
                             else gzip_compress 9%Z 0%Z raw) ]}.
Proof.
  intros Hd Hs Hc. unfold Prepare.script.
  assert (Hfile : file_in (Folder {[ [n] := File raw ]}) [n] = true).
  { unfold file_in, is_file, lookup_node. by rewrite lookup_singleton_eq. }
  assert (Prepare.has_files rglob
            (Prepare.World (Folder {[ [n] := File raw ]}) d out err) = true) as ->.
  { apply (has_files_iff rglob rglob_lists). by exists [n]. }
  cbn [negb].
  rewrite (PrepareRuns.prepare_folder rglob gzip_compress _ {[ [n] := File raw ]})
    by done.
  rewrite rglob_singleton.
  change (sorted [[n]]) with [[n]]. cbn [for_each].
  unfold Prepare.process at 1. rewrite Hfile, Hs. cbn [negb].
  unfold Prepare.target in Hc. change (name [n]) with n in *.
  assert (read_bytes (Folder {[ [n] := File raw ]}) [n] = raw) as ->.
  { unfold read_bytes. by rewrite lookup_singleton_eq. }
  destruct (Prepare.is_nogz n); rewrite Hc; cbn [bind length parent removelast fst snd].
  - change (mkdir_parents 1 ∅ []) with (@inr exn tree ∅). cbn [bind].
    unfold shutil_copy, is_dir, write_bytes. rewrite !lookup_node_empty.
    cbn [parent removelast lookup_node bind ret].
    rewrite insert_empty. by eexists.
  - change (mkdir_parents 1 ∅ []) with (@inr exn tree ∅). cbn [bind].
    unfold write_bytes. rewrite !lookup_node_empty.
    cbn [parent removelast lookup_node bind ret].
    rewrite insert_empty. by eexists.
Qed.

End Run.



End SingleSource.

(** ** Destinations of unmarked paths *)

Module PlainFacts.

Import PathLib Fs StrFacts SuffixFacts NameFacts.

Lemma join_cons (sep a : string) (l : list string) :
  l <> [] -> Py.join sep (a :: l) = a +:+ sep +:+ Py.join sep l.
Proof. unfold Py.join. by destruct l. Qed.

(** A path is its parent and its name. *)
Lemma parent_name (f : path) : f <> [] -> f = parent f ++ [name f].
Proof. intros Hf. unfold parent, name. by apply app_removelast_last. Qed.

Lemma join_snoc_append (l : list string) (n e : string) :
  Py.join "/" (l ++ [n +:+ e]) = Py.join "/" (l ++ [n]) +:+ e.
Proof.
  induction l as [|a l IH]; [done|].
  rewrite <- !app_comm_cons, !join_cons by (by destruct l).
  by rewrite IH, !app_assoc.
Qed.

(** The string of a path ends with its name. *)
Lemma str_ends_with_name (f : path) : exists pre, str f = pre +:+ name f.
Proof.
  unfold str, name. induction f as [|a f IH]; [by exists ""|].
  destruct f as [|b f]; [by exists ""|].
  destruct IH as [pre Hpre]. exists (a +:+ "/" +:+ pre).
  rewrite join_cons by done. rewrite Hpre, !app_assoc.
  by change (List.last (a :: b :: f) "") with (List.last (b :: f) "").
Qed.

Lemma split_cons_free (c : ascii) (a s : string) :
  Py.contains (String c "") a = false ->
  Py.split c (a +:+ String c s) = a :: Py.split c s.
Proof.
  induction a as [|x a IH].
  - intros _. rewrite app_nil_l. cbn [Py.split]. by rewrite Ascii.eqb_refl.
  - rewrite contains_cons, prefix_cons, prefix_nil_l. intros [Hx Ha]%orb_false_iff.
    rewrite app_cons. cbn [Py.split]. destruct (Ascii.eqb_spec x c) as [->|Hne].
    + by destruct (ascii_dec c c).
    + by rewrite (IH Ha).
Qed.

(** Splitting the string of a path of names gives the path back. *)
Lemma split_join (l : list string) :
  l <> [] -> Forall (fun n => Py.contains "/" n = false) l ->
  Py.split "/" (Py.join "/" l) = l.
Proof.
  induction l as [|a l IH]; [done|]. intros _ Hall.
  apply Forall_cons in Hall as [Ha Hl].
  destruct l as [|b l]; [by apply split_free|].
  rewrite join_cons by done.
  change (a +:+ "/" +:+ Py.join "/" (b :: l))
    with (a +:+ String "/" (Py.join "/" (b :: l))).
  rewrite split_cons_free by done. f_equal. by apply IH.
Qed.

Lemma filter_all {A} (p : A -> bool) (l : list A) :
  forallb p l = true -> List.filter p l = l.
Proof.
  induction l as [|a l IH]; [done|]. cbn. intros [Ha Hl]%andb_true_iff.
  by rewrite Ha, IH.
Qed.

Lemma is_name_parts (n : string) :
  Prepare.is_name n = true ->
  n <> "" /\ n <> "." /\ n <> ".." /\ Py.contains "/" n = false.
Proof.
  unfold Prepare.is_name.
  intros [[[H0 H1]%andb_true_iff H2]%andb_true_iff H3]%andb_true_iff.
  apply negb_true_iff in H0, H1, H2, H3.
  by apply String.eqb_neq in H0, H1, H2.
Qed.

(** [data/ / s] for the string of a path of names is that path. *)
Lemma child_join (l : list string) :
  l <> [] -> forallb Prepare.is_name l = true -> child (Py.join "/" l) = inr l.
Proof.
  intros Hne Hall. unfold child.
  assert (Forall (fun n => Prepare.is_name n = true) l) as Hf.
  { apply Forall_forall. intros n Hn%list_elem_of_In.
    by eapply (proj1 (forallb_forall _ _)) in Hall. }
  rewrite split_join; [|done|].
  2:{ eapply Forall_impl; [exact Hf|]. intros n Hn.
      by apply is_name_parts in Hn as (_ & _ & _ & Hs). }
  rewrite filter_all.
  2:{ apply forallb_forall. intros n Hn. rewrite Forall_forall in Hf.
      apply list_elem_of_In, Hf, is_name_parts in Hn as (H0 & H1 & _).
      apply String.eqb_neq in H0, H1. by rewrite H0, H1. }
  assert (Py.startswith "/" (Py.join "/" l) = false) as ->.
  { destruct l as [|a l]; [done|]. apply Forall_cons in Hf as [Ha _].
    apply is_name_parts in Ha as (H0 & _ & _ & Hs).
    unfold Py.startswith.
    assert (exists r, Py.join "/" (a :: l) = a +:+ r) as [r ->].
    { destruct l; [exists ""; by rewrite app_nil_r|eexists; by rewrite join_cons]. }
    destruct a as [|c a]; [done|]. rewrite app_cons, prefix_cons, prefix_nil_l.
    rewrite contains_cons, prefix_cons, prefix_nil_l in Hs.
    by apply orb_false_iff in Hs as [-> _]. }
  assert (existsb (String.eqb "..") l = false) as ->; [|done].
  apply not_true_is_false. intros [n [Hn Heq]]%existsb_exists.
  apply String.eqb_eq in Heq as <-. rewrite Forall_forall in Hf.
  by apply list_elem_of_In, Hf, is_name_parts in Hn as (_ & _ & H2 & _).
Qed.

(** The destination of a supported file with a plain path: its own path
    with [.gz] after the name. *)
Lemma target_plain (f : path) :
  Prepare.plain f = true -> Prepare.supported f = true ->
  Prepare.is_nogz (name f) = false /\
  child (Prepare.target f) = inr (parent f ++ [name f +:+ ".gz"]).
Proof.
  unfold Prepare.plain, Prepare.unmarked.
  intros [Hnames [Hmark Hback]%andb_true_iff]%andb_true_iff Hsup.
  apply negb_true_iff in Hmark, Hback.
  assert (f <> []) as Hne by (by intros ->).
  assert (Prepare.is_nogz (name f) = false) as Hnot.
  { apply not_true_is_false. intros Hn%is_nogz_contains_marker.
    destruct (str_ends_with_name f) as [pre Hpre]. rewrite Hpre in Hmark.
    apply contains_app_r in Hmark. congruence. }
  split; [done|]. unfold Prepare.target, Prepare.clean_name. rewrite Hnot.
  rewrite (replace_free "\" "/") by done. rewrite (unmark_free _ Hmark).
  unfold str. rewrite (parent_name f Hne) at 1. rewrite <- join_snoc_append.
  apply child_join; [by destruct (parent f)|].
  rewrite (parent_name f Hne), forallb_app in Hnames.
  apply andb_true_iff in Hnames as [Hp Hn]. rewrite forallb_app, Hp.
  cbn [forallb] in *. rewrite andb_true_r in *.
  apply is_name_parts in Hn as (H0 & _ & _ & Hs).
  apply is_name_long.
  - rewrite app_length. simpl. lia.
  - by rewrite contains_char_app, Hs.
Qed.

Lemma app_inj_r (a b s : string) : a +:+ s = b +:+ s -> a = b.
Proof.
  intros Heq.
  assert (String.length a = String.length b) as Hlen.
  { apply (f_equal String.length) in Heq. rewrite !app_length in Heq. lia. }
  revert b Heq Hlen. induction a as [|x a IH]; intros [|y b] Heq Hlen; try done.
  rewrite !app_cons in Heq. injection Heq as -> Heq. simpl in Hlen.
  f_equal. apply IH; [done|lia].
Qed.

(** Distinct paths have distinct destinations of that form. *)
Lemma gz_path_inj (f g : path) :
  f <> [] -> g <> [] ->
  parent f ++ [name f +:+ ".gz"] = parent g ++ [name g +:+ ".gz"] -> f = g.
Proof.
  intros Hf Hg Heq. apply app_inj_tail in Heq as [Hp Hn].
  apply app_inj_r in Hn.
  by rewrite (parent_name f Hf), (parent_name g Hg), Hp, Hn.
Qed.

End PlainFacts.

(** ** What the first loop of [prepare] leaves in [data/] *)

Module LoopFacts.

Import PathLib Fs PathOrder StrFacts SuffixFacts NameFacts PlainFacts UploadFacts
       PrepareFacts.

Lemma more_dirs_refl (t : tree) : more_dirs t t.
Proof. by split. Qed.

Lemma more_dirs_trans (t1 t2 t3 : tree) :
  more_dirs t1 t2 -> more_dirs t2 t3 -> more_dirs t1 t3.
Proof. intros [H1 H2] [H3 H4]. split; eauto. Qed.

Lemma os_mkdir_inr (t t' : tree) (p : path) :
  os_mkdir t p = inr t' -> more_dirs t t'.
Proof.
  unfold os_mkdir. destruct (lookup_node t p) as [v|] eqn:Hp; [done|].
  destruct (lookup_node t (parent p)) as [[c|]|]; try done.
  intros [= <-]. unfold lookup_node in Hp. destruct p as [|a p]; [done|].
  split.
  - intros q v Hq. rewrite lookup_insert_ne; [done|congruence].
  - intros q c. rewrite lookup_insert. case_decide; [done|done].
Qed.

Lemma mkdir_parents_unfold (fuel : nat) (t : tree) (p : path) :
  mkdir_parents fuel t p =
  match os_mkdir t p with
  | inr t' => ret t'
  | inl FileNotFoundError =>
      match fuel with
      | O => raise FileNotFoundError
      | S k =>
          perform t1 <- mkdir_parents k t (parent p);
          match os_mkdir t1 p with
          | inr t' => ret t'
          | inl FileNotFoundError => raise FileNotFoundError
          | inl e => if is_dir t1 p then ret t1 else raise e
          end
      end
  | inl e => if is_dir t p then ret t else raise e
  end.
Proof. by destruct fuel. Qed.

Lemma mkdir_parents_inr (fuel : nat) :
  forall (t t' : tree) (p : path),
    mkdir_parents fuel t p = inr t' -> more_dirs t t'.
Proof.
  induction fuel as [|k IH]; intros t t' p; rewrite mkdir_parents_unfold;
    destruct (os_mkdir t p) as [e|t1] eqn:Hmk.
  - destruct e; try done; destruct (is_dir t p); try done;
      intros [= <-]; apply more_dirs_refl.
  - intros [= <-]. by eapply os_mkdir_inr.
  - destruct e; try (destruct (is_dir t p); try done;
                     intros [= <-]; apply more_dirs_refl).
    destruct (mkdir_parents k t (parent p)) as [e|t1] eqn:Hpar; [done|].
    apply IH in Hpar. cbn [bind].
    destruct (os_mkdir t1 p) as [e|t2] eqn:Hmk2.
    + destruct e; try done; destruct (is_dir t1 p); try done; by intros [= <-].
    + intros [= <-]. eapply more_dirs_trans; [done|]. by eapply os_mkdir_inr.
  - intros [= <-]. by eapply os_mkdir_inr.
Qed.

Lemma write_bytes_inr (t t' : tree) (p : path) (data : list byte) :
  write_bytes t p data = inr t' -> t' = <[p := File data]> t.
Proof.
  unfold write_bytes.
  destruct (lookup_node t p) as [[c|]|]; try done;
    destruct (lookup_node t (parent p)) as [[c'|]|]; try done; by intros [= <-].
Qed.

Section Loop.

Variable gzip_compress : Z -> Z -> list byte -> list byte.
Variable src : slot.

(** The loop body on a supported file: where it has written. *)
Lemma process_supported (acc acc' : tree * nat) (f : path) :
  file_in src f = true -> Prepare.supported f = true ->
  Prepare.process gzip_compress src acc f = inr acc' ->
  exists out d1,
    child (Prepare.target f) = inr out /\ more_dirs acc.1 d1 /\
    acc'.2 = S acc.2 /\
    acc'.1 = <[(if Prepare.is_nogz (name f) && is_dir d1 out
                then out ++ [name f] else out)
               := File (Prepare.payload gzip_compress src f)]> d1.
Proof.
  intros Hf Hs. unfold Prepare.process, Prepare.target, Prepare.payload.
  rewrite Hf, Hs. cbn [negb].
  destruct (Prepare.is_nogz (name f)).
  - destruct (child _) as [e|out]; [done|]. cbn [bind].
    destruct (mkdir_parents _ _ _) as [e|d1] eqn:Hmk; [done|]. cbn [bind].
    destruct (shutil_copy _ _ _ _) as [e|d2] eqn:Hcp; [done|]. cbn [bind].
    intros [= <-]. exists out, d1. split; [done|].
    split; [by eapply mkdir_parents_inr|]. split; [done|].
    by apply write_bytes_inr in Hcp.
  - destruct (child _) as [e|out]; [done|]. cbn [bind].
    destruct (mkdir_parents _ _ _) as [e|d1] eqn:Hmk; [done|]. cbn [bind].
    destruct (write_bytes _ _ _) as [e|d2] eqn:Hwr; [done|]. cbn [bind].
    intros [= <-]. exists out, d1. split; [done|].
    split; [by eapply mkdir_parents_inr|]. split; [done|].
    by apply write_bytes_inr in Hwr.
Qed.

Lemma process_skipped (acc : tree * nat) (f : path) :
  file_in src f && Prepare.supported f = false ->
  Prepare.process gzip_compress src acc f = inr acc.
Proof.
  unfold Prepare.process.
  by destruct (file_in src f), (Prepare.supported f).
Qed.

Local Abbreviation eligible := (Prepare.eligible src).
Local Abbreviation asset_of := (Prepare.asset_of gzip_compress src).

Lemma eligible_nonempty (f : path) : eligible f -> f <> [].
Proof. intros [Hf _] ->. by destruct src. Qed.

Hypothesis src_plain : forall f, eligible f -> Prepare.plain f = true.

Lemma process_plain (acc acc' : tree * nat) (f : path) (q : path) (c : list byte) :
  Prepare.process gzip_compress src acc f = inr acc' ->
  acc'.1 !! q = Some (File c) <->
  asset_of f q c \/ (acc.1 !! q = Some (File c) /\ ~ exists c', asset_of f q c').
Proof.
  intros Hrun.
  destruct (file_in src f && Prepare.supported f) eqn:He.
  - apply andb_true_iff in He as [Hf Hs].
    destruct (process_supported acc acc' f Hf Hs Hrun) as (out & d1 & Hc & Hd & _ & Hacc).
    destruct (target_plain f (src_plain f (conj Hf Hs)) Hs) as [Hnot Hout].
    rewrite Hc in Hout. injection Hout as ->.
    rewrite Hnot in Hacc. cbn [andb] in Hacc. rewrite Hacc.
    unfold Prepare.payload. rewrite Hnot.
    destruct (decide (q = parent f ++ [name f +:+ ".gz"])) as [->|Hne].
    + rewrite lookup_insert_eq. split.
      * intros [= <-]. left. by repeat split.
      * intros [(_ & _ & ->)|[_ Hno]]; [done|].
        destruct Hno. eexists. by repeat split.
    + rewrite lookup_insert_ne by done. destruct Hd as [Hin Hback]. split.
      * intros Hq. right. split; [by apply Hback|]. by intros [c' (_ & ? & _)].
      * intros [(_ & ? & _)|[Hq _]]; [done|]. by apply Hin.
  - rewrite (process_skipped acc f He) in Hrun. injection Hrun as <-.
    apply andb_false_iff in He. split.
    + intros Hq. right. split; [done|]. intros [c' [[Hf Hs] _]]. destruct He; congruence.
    + intros [[[Hf Hs] _]|[Hq _]]; [destruct He; congruence|done].
Qed.

Lemma asset_in_list (l : list path) (q : path) :
  (exists f c', f ∈ l /\ asset_of f q c') \/ ~ (exists f c', f ∈ l /\ asset_of f q c').
Proof.
  destruct (decide (Exists (fun f => file_in src f = true /\
                                     Prepare.supported f = true /\
                                     q = parent f ++ [name f +:+ ".gz"]) l))
    as [Hex|Hno].
  - left. apply Exists_exists in Hex as (f & Hin & Hf & Hs & Hq).
    exists f. eexists. split; [done|]. by repeat split.
  - right. intros (f & c' & Hin & [Hf Hs] & Hq & _). apply Hno, Exists_exists.
    by exists f.
Qed.

(** After the loop over [l], the files of [data/] are the assets of the
    eligible entries of [l] and the files that were there and are no
    destination of such an entry. *)
Lemma loop_plain (l : list path) :
  forall (acc acc' : tree * nat) (q : path) (c : list byte),
    for_each (Prepare.process gzip_compress src) l acc = inr acc' ->
    acc'.1 !! q = Some (File c) <->
    (exists f, f ∈ l /\ asset_of f q c) \/
    (acc.1 !! q = Some (File c) /\ ~ exists f c', f ∈ l /\ asset_of f q c').
Proof.
  induction l as [|f l IH]; intros acc acc' q c; cbn [for_each].
  - intros [= <-]. split.
    + intros Hq. right. split; [done|]. intros (f & c' & Hin & _). by apply elem_of_nil in Hin.
    + intros [(f & Hin & _)|[Hq _]]; [by apply elem_of_nil in Hin|done].
  - destruct (Prepare.process gzip_compress src acc f) as [e|acc1] eqn:Hstep; [done|].
    cbn [bind]. intros Hrest.
    rewrite (IH acc1 acc' q c Hrest), (process_plain acc acc1 f q c Hstep).
    split.
    + intros [(g & Hin & Hg)|[[Hf|[Hq Hnf]] Hnl]].
      * left. exists g. split; [by apply elem_of_cons; right|done].
      * left. exists f. split; [by apply elem_of_cons; left|done].
      * right. split; [done|]. intros (g & c' & [->|Hin]%elem_of_cons & Hg).
        -- apply Hnf. by exists c'.
        -- apply Hnl. by exists g, c'.
    + intros [(g & [->|Hin]%elem_of_cons & Hg)|[Hq Hn]].
      * destruct (asset_in_list l q) as [(h & c' & Hin & Hh)|Hnone].
        -- left. exists h. split; [done|].
           destruct Hg as (Hge & -> & ->), Hh as (Hhe & Hhq & _).
           apply gz_path_inj in Hhq as ->; [split; [done|by split]| |];
             by apply eligible_nonempty.
        -- right. split; [by left|done].
      * left. by exists g.
      * right. split.
        -- right. split; [done|]. intros [c' Hc']. apply Hn. exists f, c'.
           split; [by apply elem_of_cons; left|done].
        -- intros (g & c' & Hin & Hg). apply Hn. exists g, c'.
           split; [by apply elem_of_cons; right|done].
Qed.

End Loop.

End LoopFacts.

(** ** One canonical asset for each eligible source *)

Module CanonicalAssets.

Import PathLib Fs PathOrder PlainFacts UploadFacts PrepareFacts LoopFacts.

Lemma eligible_in_listing (t : tree) (f : path) :
  Prepare.eligible (Folder t) f -> f ∈ listing t.
Proof.
  intros [Hf _]. apply (elem_of_rglob listing listing_lists_every_entry).
  unfold file_in, is_file, lookup_node in Hf.
  destruct f as [|a f]; [done|]. by destruct (t !! (a :: f)).
Qed.




End CanonicalAssets.

(** ** Directory trees *)

Module TreeFacts.

Import PathLib Fs.

Lemma is_dir_lookup (t : tree) (p : path) :
  p <> [] -> is_dir t p = true <-> t !! p = Some Dir.
Proof.
  unfold is_dir, lookup_node. destruct p as [|a p]; [done|]. intros _.
  destruct (t !! (a :: p)) as [[c|]|]; split; congruence.
Qed.

Lemma is_file_lookup (t : tree) (p : path) :
  p <> [] -> is_file t p = true <-> exists c, t !! p = Some (File c).
Proof.
  unfold is_file, lookup_node. destruct p as [|a p]; [done|]. intros _.
  destruct (t !! (a :: p)) as [[c|]|]; split; try congruence; eauto.
  - by intros [c Hc].
  - by intros [c Hc].
Qed.

Lemma is_file_root (t : tree) : is_file t [] = false.
Proof. reflexivity. Qed.

Lemma parent_snoc (p : path) (x : string) : parent (p ++ [x]) = p.
Proof. apply removelast_last. Qed.

Lemma name_snoc (p : path) (x : string) : name (p ++ [x]) = x.
Proof. apply last_last. Qed.

(** In a well-formed tree every proper prefix of an entry is a
    directory. *)
Lemma well_formed_prefix (t : tree) :
  well_formed t ->
  forall (k p : path) (v : node),
    t !! (p ++ k) = Some v -> k <> [] -> p <> [] -> t !! p = Some Dir.
Proof.
  intros Hwf k. induction k as [|x k IH] using rev_ind; intros p v Hl Hk Hp; [done|].
  rewrite app_assoc in Hl. destruct (Hwf _ _ Hl) as [_ Hd].
  rewrite parent_snoc in Hd. destruct k as [|y k].
  - rewrite app_nil_r in Hd. by apply is_dir_lookup.
  - apply is_dir_lookup in Hd; [|by destruct p].
    by apply (IH p Dir Hd).
Qed.

Lemma well_formed_top (t : tree) (p : path) (v : node) :
  well_formed t -> t !! p = Some v -> is_Some (t !! [hd "" p]).
Proof.
  intros Hwf Hp. destruct (Hwf _ _ Hp) as [Hne _].
  destruct p as [|a [|b p]]; [done|by eexists|]. cbn [hd].
  exists Dir. by apply (well_formed_prefix t Hwf (b :: p) [a] v).
Qed.

Lemma well_formed_empty : well_formed ∅.
Proof. intros p v Hp. by rewrite lookup_empty in Hp. Qed.

End TreeFacts.

(** ** The second loop of [prepare] *)

Module CleanupFacts.

Import PathLib Fs TreeFacts UploadFacts PathOrder.

Lemma prefix_top (n : string) (p : path) :
  p <> [] -> [n] `prefix_of` p <-> hd "" p = n.
Proof.
  destruct p as [|a p]; [done|]. intros _. cbn [hd]. split.
  - intros [k Hk]. by injection Hk.
  - intros ->. by exists p.
Qed.

(** One step of the loop, on an entry at the top of the directory. *)
Lemma discard_top (u : tree) (n : string) :
  (forall p v, u !! p = Some v -> p <> []) ->
  (forall c p, u !! [n] = Some (File c) -> is_Some (u !! p) -> hd "" p = n -> p = [n]) ->
  (u !! [n] = None -> forall p, is_Some (u !! p) -> hd "" p <> n) ->
  Prepare.discard u [n] =
  filter (fun kv => Prepare.kept n = true \/ hd "" kv.1 <> n) u.
Proof.
  intros Hne Hfile Hnone. unfold Prepare.discard, Prepare.kept.
  change (name [n]) with n.
  destruct (Py.startswith "." n || String.eqb (suffix n) ".py") eqn:Hk.
  { symmetry. apply map_filter_id. intros; by left. }
  unfold is_dir, is_file, lookup_node.
  destruct (u !! [n]) as [[c|]|] eqn:Hn.
  - apply map_eq. intros p. destruct (decide (p = [n])) as [->|Hp].
    + rewrite lookup_delete_eq. symmetry. apply map_lookup_filter_None.
      right. intros x _ [?|Hx]; [done|]. by apply Hx.
    + rewrite lookup_delete_ne by done.
      destruct (u !! p) as [v|] eqn:Hv.
      * symmetry. apply map_lookup_filter_Some. split; [done|]. right.
        intros Hh. apply Hp. by apply (Hfile c p).
      * symmetry. apply map_lookup_filter_None. by left.
  - unfold rmtree. apply map_filter_ext. intros p v Hv. cbn [fst].
    rewrite (prefix_top n p (Hne p v Hv)). split; [by right|].
    by intros [?|?].
  - symmetry. apply map_filter_id. intros p v Hv. right. cbn [fst].
    apply Hnone; [done|by eexists].
Qed.

Section Cleanup.

Variable rglob : tree -> list path.
Hypothesis Hrglob : lists_every_entry rglob.

Lemma elem_of_iterdir (t : tree) (p : path) :
  p ∈ rev (sorted (Prepare.iterdir rglob t)) <-> is_Some (t !! p) /\ length p = 1.
Proof.
  rewrite list_elem_of_In, <- in_rev, <- list_elem_of_In, sorted_Permutation.
  unfold Prepare.iterdir. rewrite list_elem_of_In, filter_In, <- list_elem_of_In.
  rewrite (elem_of_rglob rglob Hrglob), Nat.eqb_eq. tauto.
Qed.

Lemma NoDup_iterdir (t : tree) : NoDup (rev (sorted (Prepare.iterdir rglob t))).
Proof.
  rewrite <- (rev_involutive (sorted _)), rev_involutive.
  apply NoDup_ListNoDup, List.NoDup_rev, NoDup_ListNoDup.
  rewrite sorted_Permutation. unfold Prepare.iterdir.
  apply NoDup_ListNoDup, List.NoDup_filter, NoDup_ListNoDup.
  by apply NoDup_rglob.
Qed.

(** The loop on a list of different entries at the top of a well-formed
    directory. *)
Lemma fold_discard (t : tree) :
  well_formed t ->
  forall l : list path,
    NoDup l -> (forall p, p ∈ l -> is_Some (t !! p) /\ length p = 1) ->
    fold_left Prepare.discard l t =
    filter (fun kv => Prepare.kept (hd "" kv.1) = true \/ [hd "" kv.1] ∉ l) t.
Proof.
  intros Hwf l. induction l as [|x l IH] using rev_ind; intros Hnd Hin.
  - cbn [fold_left]. symmetry. apply map_filter_id. intros p v _. right.
    apply not_elem_of_nil.
  - apply NoDup_app in Hnd as (Hnd & Hx & _).
    rewrite fold_left_app. cbn [fold_left].
    rewrite IH; [|done|intros p Hp; apply Hin, elem_of_app; by left].
    destruct (Hin x) as [[v Hv] Hlen]; [apply elem_of_app; right; by left|].
    destruct x as [|n [|? ?]]; try done. clear Hlen.
    assert (Hnl : [n] ∉ l) by (intros H; apply (Hx [n] H); by left).
    rewrite discard_top.
    + rewrite map_filter_filter. apply map_filter_ext. intros p w Hw. cbn [fst].
      rewrite elem_of_app, list_elem_of_singleton.
      destruct (decide (hd "" p = n)) as [Hh|Hh].
      * rewrite Hh. split.
        -- intros [[Hk|?] _]; [by left|done].
        -- intros [Hk|Hn]; [split; by left|]. exfalso. apply Hn. by right.
      * split.
        -- intros [_ [Hk|Hl]]; [by left|]. right. intros [?|Hp]; [done|].
           by injection Hp.
        -- intros [Hk|Hn]; [split; [by right|by left]|].
           split; right; [done|]. intros Hl. apply Hn. by left.
    + intros p w Hw. apply map_lookup_filter_Some in Hw as [Hw _].
      by destruct (Hwf p w Hw).
    + intros c p Hc [w Hw] Hh.
      apply map_lookup_filter_Some in Hc as [Hc _].
      apply map_lookup_filter_Some in Hw as [Hw _].
      destruct p as [|a [|b p]]; [by destruct (Hwf _ _ Hw)|by cbn in Hh; subst|].
      cbn in Hh; subst a.
      rewrite (well_formed_prefix t Hwf (b :: p) [n] w Hw) in Hc; done.
    + intros Hnone p [w Hw] Hh.
      apply map_lookup_filter_None in Hnone as [Hnone|Hnone]; [congruence|].
      apply (Hnone v Hv). right. done.
Qed.

(** What the second loop leaves of a well-formed build directory. *)
Lemma cleanup_result (t : tree) :
  well_formed t ->
  fold_left Prepare.discard (rev (sorted (Prepare.iterdir rglob t))) t =
  filter (fun kv => Prepare.kept (hd "" kv.1) = true) t.
Proof.
  intros Hwf. rewrite (fold_discard t Hwf).
  - apply map_filter_ext. intros p v Hv. cbn [fst]. split; [|by left].
    intros [Hk|Hn]; [done|]. exfalso. apply Hn, elem_of_iterdir.
    split; [by apply (well_formed_top t p v)|done].
  - apply NoDup_iterdir.
  - intros p. apply elem_of_iterdir.
Qed.

End Cleanup.

End CleanupFacts.

(** ** The first loop of [prepare]: what it writes, and when it ends *)

Module SourceFacts.

Import PathLib Fs TreeFacts UploadFacts PathOrder PlainFacts LoopFacts.

Lemma eligible_is_entry (t : tree) (f : path) :
  Prepare.eligible (Folder t) f -> f <> [] /\ exists c, t !! f = Some (File c).
Proof.
  intros [Hf _]. cbn [file_in] in Hf.
  assert (f <> []) as Hne by (intros ->; done).
  split; [done|]. by apply is_file_lookup.
Qed.

Section Loop.

Variable gzip_compress : Z -> Z -> list byte -> list byte.
Variable src : slot.

(** A step of the loop keeps the files written before it as files. *)
Lemma process_keeps_files (acc acc' : tree * nat) (f q : path) (c : list byte) :
  Prepare.process gzip_compress src acc f = inr acc' ->
  acc.1 !! q = Some (File c) -> exists c', acc'.1 !! q = Some (File c').
Proof.
  intros Hrun Hq.
  destruct (file_in src f && Prepare.supported f) eqn:He.
  - apply andb_true_iff in He as [Hf Hs].
    destruct (process_supported gzip_compress src acc acc' f Hf Hs Hrun)
      as (out & d1 & _ & [Hin _] & _ & ->).
    set (key := if Prepare.is_nogz (name f) && is_dir d1 out then out ++ [name f] else out).
    destruct (decide (q = key)) as [->|Hne].
    + rewrite lookup_insert_eq. by eexists.
    + rewrite lookup_insert_ne by done. exists c. by apply Hin.
  - rewrite (process_skipped gzip_compress src acc f He) in Hrun.
    injection Hrun as <-. by exists c.
Qed.

(** Every file the loop leaves was there before or is the payload of a
    supported file of the list, at a place the loop writes it to. *)
Lemma loop_sources (l : list path) :
  forall (acc acc' : tree * nat) (q : path) (c : list byte),
    for_each (Prepare.process gzip_compress src) l acc = inr acc' ->
    acc'.1 !! q = Some (File c) ->
    acc.1 !! q = Some (File c) \/
    exists f, f ∈ l /\ Prepare.eligible src f /\ Prepare.written_at f q /\
              c = Prepare.payload gzip_compress src f.
Proof.
  induction l as [|f l IH]; intros acc acc' q c; cbn [for_each].
  - intros [= <-] Hq. by left.
  - destruct (Prepare.process gzip_compress src acc f) as [e|acc1] eqn:Hstep; [done|].
    cbn [bind]. intros Hrest Hq.
    destruct (IH _ _ _ _ Hrest Hq) as [Hq1|(g & Hg & ?)].
    2:{ right. exists g. split; [by right|done]. }
    destruct (file_in src f && Prepare.supported f) eqn:He.
    + apply andb_true_iff in He as [Hf Hs].
      destruct (process_supported gzip_compress src acc acc1 f Hf Hs Hstep)
        as (out & d1 & Hout & [_ Hback] & _ & Hacc).
      rewrite Hacc in Hq1.
      destruct (decide (q = (if Prepare.is_nogz (name f) && is_dir d1 out
                             then out ++ [name f] else out))) as [Heq|Hne].
      * right. exists f. split; [by left|]. split; [done|].
        rewrite Heq, lookup_insert_eq in Hq1. injection Hq1 as <-.
        split; [|done]. exists out. split; [done|].
        destruct (Prepare.is_nogz (name f)); [|by left].
        destruct (is_dir d1 out); [right|left]; done.
      * rewrite lookup_insert_ne in Hq1 by done. left. by apply Hback.
    + rewrite (process_skipped gzip_compress src acc f He) in Hstep.
      injection Hstep as <-. by left.
Qed.

(** Every supported file of the list has a file at a place the loop
    writes it to. *)
Lemma loop_targets (l : list path) :
  forall (acc acc' : tree * nat),
    for_each (Prepare.process gzip_compress src) l acc = inr acc' ->
    (forall q c, acc.1 !! q = Some (File c) -> exists c', acc'.1 !! q = Some (File c')) /\
    (forall f, f ∈ l -> Prepare.eligible src f ->
       exists q c, Prepare.written_at f q /\ acc'.1 !! q = Some (File c)).
Proof.
  induction l as [|f l IH]; intros acc acc'; cbn [for_each].
  - intros [= <-]. split; [by eauto|]. intros f Hf. by apply elem_of_nil in Hf.
  - destruct (Prepare.process gzip_compress src acc f) as [e|acc1] eqn:Hstep; [done|].
    cbn [bind]. intros Hrest. destruct (IH _ _ Hrest) as [Hkeep Hall]. split.
    + intros q c Hq.
      destruct (process_keeps_files acc acc1 f q c Hstep Hq) as [c1 Hc1]. eauto.
    + intros g Hg Hel. apply elem_of_cons in Hg as [->|Hg]; [|by apply Hall].
      destruct Hel as [Hf Hs].
      destruct (process_supported gzip_compress src acc acc1 f Hf Hs Hstep)
        as (out & d1 & Hout & _ & _ & Hacc).
      destruct (Hkeep (if Prepare.is_nogz (name f) && is_dir d1 out
                       then out ++ [name f] else out)
                      (Prepare.payload gzip_compress src f)) as [c' Hc'].
      { rewrite Hacc. apply lookup_insert_eq. }
      eexists _, c'. split; [|exact Hc'].
      exists out. split; [done|].
      destruct (Prepare.is_nogz (name f)); [|by left].
      destruct (is_dir d1 out); [right|left]; done.
Qed.

End Loop.

(** [mkdir(parents=True, exist_ok=True)] goes through when no part of
    the way is a file; the path is then a directory, what was there
    stays, and the new directories lie on the way. *)
Lemma mkdir_parents_total (fuel : nat) :
  forall (p : path) (t : tree),
    length p <= fuel ->
    (forall q, q `prefix_of` p -> is_file t q = false) ->
    exists t',
      mkdir_parents fuel t p = inr t' /\ is_dir t' p = true /\ more_dirs t t' /\
      forall q, t' !! q = Some Dir -> t !! q = Some Dir \/ (q `prefix_of` p /\ q <> []).
Proof.
  induction fuel as [|k IH]; intros p t Hlen Hfree; rewrite mkdir_parents_unfold.
  all: pose proof (Hfree p (reflexivity p)) as Hp; unfold is_file in Hp.
  all: unfold os_mkdir; destruct (lookup_node t p) as [[c|]|] eqn:Hlp; [done| |].
  all: try (cbn [raise]; unfold is_dir; rewrite Hlp; exists t;
            split; [done|]; split; [by rewrite Hlp|]; split;
            [apply more_dirs_refl|by left]).
  all: assert (p <> []) as Hne by (by intros ->).
  all: assert (parent p `prefix_of` p) as Hpre
         by (exists [name p]; by apply parent_name).
  all: pose proof (Hfree _ Hpre) as Hpp; unfold is_file in Hpp.
  all: destruct (lookup_node t (parent p)) as [[c|]|] eqn:Hlpp; [done| |].
  all: try (exists (<[p := Dir]> t); split; [done|];
            split; [unfold is_dir, lookup_node; destruct p; [done|];
                    by rewrite lookup_insert_eq|];
            split; [apply (os_mkdir_inr t _ p); unfold os_mkdir; by rewrite Hlp, Hlpp|];
            intros q; destruct (decide (q = p)) as [->|Hq];
            [by right|rewrite lookup_insert_ne by done; by left]).
  - destruct p; [done|]. cbn in Hlen. lia.
  - cbn [raise].
    destruct (IH (parent p) t) as (t1 & Hrun & Hdir & Hmore & Hnew).
    { destruct p as [|a p] using rev_ind; [done|]. rewrite parent_snoc.
      rewrite length_app in Hlen. cbn in Hlen. lia. }
    { intros q Hq. apply Hfree. by etrans. }
    rewrite Hrun. cbn [bind].
    assert (t !! p = None) as Htp by (by destruct p).
    destruct (lookup_node t1 p) as [[c|]|] eqn:Hl1.
    + destruct Hmore as [_ Hback]. destruct p; [done|].
      cbn [lookup_node] in Hl1. apply Hback in Hl1. congruence.
    + cbn [raise]. unfold is_dir at 1. rewrite Hl1. exists t1.
      split; [done|]. split; [unfold is_dir; by rewrite Hl1|]. split; [done|].
      intros q Hq. destruct (Hnew q Hq) as [?|[Hqp ?]]; [by left|right].
      split; [by etrans|done].
    + unfold is_dir in Hdir.
      destruct (lookup_node t1 (parent p)) as [[c|]|] eqn:Hl1p; try done.
      exists (<[p := Dir]> t1). split; [done|].
      split; [unfold is_dir, lookup_node; destruct p; [done|];
              by rewrite lookup_insert_eq|].
      split.
      * eapply more_dirs_trans; [done|]. apply (os_mkdir_inr t1 _ p).
        unfold os_mkdir. by rewrite Hl1, Hl1p.
      * intros q. destruct (decide (q = p)) as [->|Hq]; [by right|].
        rewrite lookup_insert_ne by done. intros Hq1.
        destruct (Hnew q Hq1) as [?|[Hqp ?]]; [by left|right].
        split; [by etrans|done].
Qed.

End SourceFacts.

(** ** Directories on which [prepare] runs to its end *)

Module TotalFacts.

Import PathLib Fs TreeFacts UploadFacts PathOrder PlainFacts LoopFacts SourceFacts.

Section Total.

Variable gzip_compress : Z -> Z -> list byte -> list byte.
Variable t : tree.

Hypothesis t_well_formed : well_formed t.
Hypothesis t_plain : forall f, Prepare.eligible (Folder t) f -> Prepare.plain f = true.
Hypothesis t_no_gz_dir :
  forall f, Prepare.eligible (Folder t) f ->
            t !! (parent f ++ [name f +:+ ".gz"]) <> Some Dir.

(** A prefix of the directory of an entry is a directory. *)
Lemma way_is_dir (f q : path) :
  Prepare.eligible (Folder t) f -> q `prefix_of` parent f -> q <> [] ->
  t !! q = Some Dir.
Proof.
  intros Hel [k Hk] Hq. destruct (eligible_is_entry t f Hel) as [Hne [c Hc]].
  rewrite (parent_name f Hne), Hk, <- app_assoc in Hc.
  apply (well_formed_prefix t t_well_formed (k ++ [name f]) q _ Hc); [|done].
  by destruct k.
Qed.

(** The loop body goes through, and keeps two things: a directory of
    [data/] is a directory of the build directory, and a file of [data/]
    stands where a supported file is compressed to. *)
Lemma process_total (acc : tree * nat) (f : path) :
  (forall q, acc.1 !! q = Some Dir -> t !! q = Some Dir) ->
  (forall q c, acc.1 !! q = Some (File c) ->
     exists g, Prepare.eligible (Folder t) g /\ q = parent g ++ [name g +:+ ".gz"]) ->
  exists acc',
    Prepare.process gzip_compress (Folder t) acc f = inr acc' /\
    (forall q, acc'.1 !! q = Some Dir -> t !! q = Some Dir) /\
    (forall q c, acc'.1 !! q = Some (File c) ->
       exists g, Prepare.eligible (Folder t) g /\ q = parent g ++ [name g +:+ ".gz"]).
Proof.
  intros Hdirs Hfiles.
  destruct (file_in (Folder t) f && Prepare.supported f) eqn:He.
  2:{ exists acc. by rewrite (process_skipped gzip_compress (Folder t) acc f He). }
  apply andb_true_iff in He as [Hf Hs].
  assert (Prepare.eligible (Folder t) f) as Hel by done.
  destruct (target_plain f (t_plain f Hel) Hs) as [Hnot Hout].
  unfold Prepare.target in Hout. rewrite Hnot in Hout.
  unfold Prepare.process. rewrite Hf, Hs, Hnot. cbn [negb]. rewrite Hout. cbn [bind].
  rewrite parent_snoc.
  destruct (mkdir_parents_total (length (parent f ++ [name f +:+ ".gz"])) (parent f) acc.1)
    as (d1 & Hmk & Hdir & Hmore & Hnew).
  { rewrite length_app. cbn. lia. }
  { intros q Hq. destruct (is_file acc.1 q) eqn:Hfq; [|done]. exfalso.
    assert (q <> []) as Hqne by (by intros ->).
    apply is_file_lookup in Hfq as [c Hc]; [|done].
    destruct (Hfiles q c Hc) as (g & Hg & Hqg).
    apply (t_no_gz_dir g Hg). rewrite <- Hqg. by apply (way_is_dir f). }
  rewrite Hmk. cbn [bind].
  assert (d1 !! (parent f ++ [name f +:+ ".gz"]) <> Some Dir) as Hfree.
  { intros Hd. apply (t_no_gz_dir f Hel).
    destruct (Hnew _ Hd) as [Ha|[Hpre Hne]]; [by apply Hdirs|].
    by apply (way_is_dir f). }
  unfold write_bytes. rewrite parent_snoc.
  assert (lookup_node d1 (parent f ++ [name f +:+ ".gz"]) =
          d1 !! (parent f ++ [name f +:+ ".gz"])) as ->.
  { by destruct (parent f). }
  unfold is_dir in Hdir.
  destruct (d1 !! (parent f ++ [name f +:+ ".gz"])) as [[c|]|] eqn:Hl; [|done|].
  all: destruct (lookup_node d1 (parent f)) as [[c'|]|]; try done.
  all: cbn [bind]; eexists; split; [reflexivity|]; cbn [fst]; split.
  all: intros q; destruct (decide (q = parent f ++ [name f +:+ ".gz"])) as [->|Hq].
  all: try (rewrite lookup_insert_eq; try done; intros ? _; by exists f).
  all: rewrite lookup_insert_ne by done.
  all: try (intros Hd; destruct (Hnew _ Hd) as [Ha|[Hpre Hne]];
            [by apply Hdirs|by apply (way_is_dir f)]).
  all: intros c0 Hc0; apply (Hfiles q c0); by apply Hmore.
Qed.

Lemma loop_total (l : list path) :
  forall acc : tree * nat,
    (forall q, acc.1 !! q = Some Dir -> t !! q = Some Dir) ->
    (forall q c, acc.1 !! q = Some (File c) ->
       exists g, Prepare.eligible (Folder t) g /\ q = parent g ++ [name g +:+ ".gz"]) ->
    exists acc', for_each (Prepare.process gzip_compress (Folder t)) l acc = inr acc'.
Proof.
  induction l as [|f l IH]; intros acc Hdirs Hfiles; cbn [for_each]; [by eexists|].
  destruct (process_total acc f Hdirs Hfiles) as (acc1 & -> & Hd1 & Hf1).
  cbn [bind]. by apply IH.
Qed.

End Total.

End TotalFacts.

(** ** The directories of [data/] *)

Module DirFacts.

Import PathLib Fs TreeFacts PlainFacts LoopFacts SourceFacts.

Lemma os_mkdir_new (t t' : tree) (p : path) :
  os_mkdir t p = inr t' -> t' = <[p := Dir]> t /\ p <> [].
Proof.
  unfold os_mkdir. destruct (lookup_node t p) as [v|] eqn:Hp; [done|].
  destruct (lookup_node t (parent p)) as [[c|]|]; try done.
  intros [= <-]. split; [done|]. by intros ->.
Qed.

(** The directories [mkdir] makes lie on the way to its path. *)
Lemma mkdir_parents_new (fuel : nat) :
  forall (t t' : tree) (p q : path),
    mkdir_parents fuel t p = inr t' -> t' !! q = Some Dir ->
    t !! q = Some Dir \/ (q `prefix_of` p /\ q <> []).
Proof.
  assert (Hstep : forall (t t' : tree) (p q : path),
             os_mkdir t p = inr t' -> t' !! q = Some Dir ->
             t !! q = Some Dir \/ (q `prefix_of` p /\ q <> [])).
  { intros t t' p q [-> Hne]%os_mkdir_new.
    destruct (decide (q = p)) as [->|Hq]; [by right|].
    rewrite lookup_insert_ne by done. by left. }
  induction fuel as [|k IH]; intros t t' p q; rewrite mkdir_parents_unfold;
    destruct (os_mkdir t p) as [e|t1] eqn:Hmk.
  - destruct e; try done; destruct (is_dir t p); try done; intros [= <-]; by left.
  - intros [= <-]. by apply Hstep.
  - destruct e; try (destruct (is_dir t p); try done; intros [= <-]; by left).
    destruct (mkdir_parents k t (parent p)) as [e|t1] eqn:Hpar; [done|].
    cbn [bind].
    assert (Hup : forall q, t1 !! q = Some Dir ->
                  t !! q = Some Dir \/ (q `prefix_of` p /\ q <> [])).
    { intros q' Hq'. destruct (IH _ _ _ _ Hpar Hq') as [?|[Hpre ?]]; [by left|right].
      split; [|done]. etrans; [done|].
      destruct p as [|a p] using rev_ind; [done|]. rewrite parent_snoc. by exists [a]. }
    destruct (os_mkdir t1 p) as [e|t2] eqn:Hmk2.
    + destruct e; try done; destruct (is_dir t1 p); try done; intros [= <-]; apply Hup.
    + intros [= <-] Hq. destruct (Hstep _ _ _ _ Hmk2 Hq) as [?|?]; [by apply Hup|by right].
  - intros [= <-]. by apply Hstep.
Qed.

Lemma write_bytes_target (t t' : tree) (p : path) (data : list byte) :
  write_bytes t p data = inr t' ->
  t' = <[p := File data]> t /\ p <> [] /\ t !! p <> Some Dir.
Proof.
  intros Hrun. split; [by apply write_bytes_inr in Hrun|].
  unfold write_bytes in Hrun. destruct p as [|a p]; [done|]. split; [done|].
  cbn [lookup_node] in Hrun. intros Hd. by rewrite Hd in Hrun.
Qed.

Section Loop.

Variable gzip_compress : Z -> Z -> list byte -> list byte.
Variable src : slot.

(** Writing a file below the directories made for it. *)
Lemma write_below (d0 d1 d2 : tree) (out key : path) (data : list byte) :
  (forall q, d0 !! q = Some Dir -> exists k c, k <> [] /\ d0 !! (q ++ k) = Some (File c)) ->
  mkdir_parents (length out) d0 (parent out) = inr d1 ->
  write_bytes d1 key data = inr d2 ->
  out `prefix_of` key ->
  forall q, d2 !! q = Some Dir -> exists k c, k <> [] /\ d2 !! (q ++ k) = Some (File c).
Proof.
  intros Hinv Hmk Hwr [k0 Hkey] q Hq.
  destruct (write_bytes_target _ _ _ _ Hwr) as (-> & Hkne & Hfree).
  destruct (decide (q = key)) as [->|Hqk]; [by rewrite lookup_insert_eq in Hq|].
  rewrite lookup_insert_ne in Hq by done.
  destruct (mkdir_parents_new _ _ _ _ _ Hmk Hq) as [Hold|[[k1 Hpre] Hqne]].
  - destruct (Hinv q Hold) as (k & c & Hk & Hc).
    destruct (decide (q ++ k = key)) as [Heq|Hne].
    + exists k, data. split; [done|]. rewrite Heq. apply lookup_insert_eq.
    + exists k, c. split; [done|]. rewrite lookup_insert_ne by done.
      by apply (mkdir_parents_inr _ _ _ _ Hmk).
  - assert (out <> []) as Hone.
    { intros ->. cbn in Hpre. by destruct q. }
    exists (k1 ++ [name out] ++ k0), data. split; [by destruct k1|].
    rewrite app_assoc, <- Hpre, app_assoc, <- (parent_name out Hone), <- Hkey.
    apply lookup_insert_eq.
Qed.

(** The loop body keeps a file below every directory of [data/]. *)
Lemma process_dirs (acc acc' : tree * nat) (f : path) :
  Prepare.process gzip_compress src acc f = inr acc' ->
  (forall q, acc.1 !! q = Some Dir ->
     exists k c, k <> [] /\ acc.1 !! (q ++ k) = Some (File c)) ->
  forall q, acc'.1 !! q = Some Dir ->
    exists k c, k <> [] /\ acc'.1 !! (q ++ k) = Some (File c).
Proof.
  intros Hrun Hinv.
  destruct (file_in src f && Prepare.supported f) eqn:He.
  2:{ rewrite (process_skipped gzip_compress src acc f He) in Hrun.
      by injection Hrun as <-. }
  apply andb_true_iff in He as [Hf Hs].
  unfold Prepare.process in Hrun. rewrite Hf, Hs in Hrun. cbn [negb] in Hrun.
  destruct (Prepare.is_nogz (name f)).
  - destruct (child _) as [e|out]; [done|]. cbn [bind] in Hrun.
    destruct (mkdir_parents _ _ _) as [e|d1] eqn:Hmk; [done|]. cbn [bind] in Hrun.
    destruct (shutil_copy _ _ _ _) as [e|d2] eqn:Hcp; [done|]. cbn [bind] in Hrun.
    injection Hrun as <-. cbn [fst]. unfold shutil_copy in Hcp.
    eapply (write_below acc.1 d1 d2 out); [done|done|exact Hcp|].
    destruct (is_dir d1 out); [by exists [name f]|done].
  - destruct (child _) as [e|out]; [done|]. cbn [bind] in Hrun.
    destruct (mkdir_parents _ _ _) as [e|d1] eqn:Hmk; [done|]. cbn [bind] in Hrun.
    destruct (write_bytes _ _ _) as [e|d2] eqn:Hwr; [done|]. cbn [bind] in Hrun.
    injection Hrun as <-. cbn [fst].
    by eapply (write_below acc.1 d1 d2 out).
Qed.

Lemma loop_dirs (l : list path) :
  forall acc acc' : tree * nat,
    for_each (Prepare.process gzip_compress src) l acc = inr acc' ->
    (forall q, acc.1 !! q = Some Dir ->
       exists k c, k <> [] /\ acc.1 !! (q ++ k) = Some (File c)) ->
    forall q, acc'.1 !! q = Some Dir ->
      exists k c, k <> [] /\ acc'.1 !! (q ++ k) = Some (File c).
Proof.
  induction l as [|f l IH]; intros acc acc'; cbn [for_each].
  - by intros [= <-].
  - destruct (Prepare.process gzip_compress src acc f) as [e|acc1] eqn:Hstep; [done|].
    cbn [bind]. intros Hrest Hinv. apply (IH _ _ Hrest).
    by apply (process_dirs acc acc1 f).
Qed.

End Loop.

End DirFacts.

(** ** The fingerprint and the state file *)

Module HashFacts.

Import PathLib Fs TreeFacts UploadFacts UploadGate PathOrder.

Lemma file_in_lookup (t : tree) (f : path) :
  file_in (Folder t) f = true <-> f <> [] /\ exists c, t !! f = Some (File c).
Proof.
  cbn [file_in]. split.
  - intros Hf. assert (f <> []) as Hne by (by intros ->).
    split; [done|]. by apply is_file_lookup.
  - intros [Hne Hc]. by apply is_file_lookup.
Qed.

Section Files.

Variable rglob : tree -> list path.
Hypothesis rglob_lists : lists_every_entry rglob.

(** The files of a directory in the order of the loop. *)
Lemma elem_of_files (t : tree) (f : path) :
  f ∈ filter (fun f => file_in (Folder t) f = true) (sorted (rglob t)) <->
  f <> [] /\ exists c, t !! f = Some (File c).
Proof.
  rewrite list_elem_of_filter, sorted_Permutation, (elem_of_rglob rglob rglob_lists).
  rewrite file_in_lookup. split; [tauto|]. intros [Hne [c Hc]].
  split; [by eauto|by eexists].
Qed.

Lemma files_same (t t' : tree) :
  (forall p c, t !! p = Some (File c) <-> t' !! p = Some (File c)) ->
  filter (fun f => file_in (Folder t) f = true) (sorted (rglob t)) =
  filter (fun f => file_in (Folder t') f = true) (sorted (rglob t')).
Proof.
  intros Hsame. apply (Sorted_unique le).
  - apply Sorted_filter_le, sorted_Sorted.
  - apply Sorted_filter_le, sorted_Sorted.
  - apply NoDup_Permutation.
    + apply NoDup_filter. rewrite sorted_Permutation. by apply NoDup_rglob.
    + apply NoDup_filter. rewrite sorted_Permutation. by apply NoDup_rglob.
    + intros f. rewrite !elem_of_files. split; intros [Hne [c Hc]];
        (split; [done|]; exists c; by apply Hsame).
Qed.

Lemma hash_same_files (t t' : tree) :
  (forall p c, t !! p = Some (File c) <-> t' !! p = Some (File c)) ->
  Upload.compute_data_hash rglob (Folder t) = Upload.compute_data_hash rglob (Folder t').
Proof.
  intros Hsame. unfold Upload.compute_data_hash. cbn [exists_ negb Upload.entries].
  f_equal. rewrite !fold_feed. f_equal. rewrite <- (files_same t t' Hsame).
  assert (Hall : Forall (fun f => read_bytes (Folder t) f = read_bytes (Folder t') f)
                   (filter (fun f => file_in (Folder t) f = true) (sorted (rglob t)))).
  { apply Forall_forall. intros f [_ [c Hc]]%elem_of_files. cbn [read_bytes].
    rewrite Hc. apply Hsame in Hc. by rewrite Hc. }
  induction Hall as [|f l Hf _ IH]; [done|]. cbn [flat_map]. by rewrite Hf, IH.
Qed.

End Files.

Lemma lstrip_spaces (ws rest : Py.text) :
  Forall (fun c => Py.isspace c = true) ws -> Py.lstrip (ws ++ rest) = Py.lstrip rest.
Proof.
  induction 1 as [|c ws Hc _ IH]; [done|]. cbn [app Py.lstrip]. by rewrite Hc.
Qed.

Lemma lstrip_clean (t rest : Py.text) :
  t <> [] -> Forall (fun c => Py.isspace c = false) t -> Py.lstrip (t ++ rest) = t ++ rest.
Proof.
  intros Hne Hall. destruct Hall as [|c t Hc _]; [done|].
  cbn [app Py.lstrip]. by rewrite Hc.
Qed.

(** [strip] takes the whitespace off both ends. *)
Lemma strip_padded (before t after : Py.text) :
  Forall (fun c => Py.isspace c = true) before ->
  Forall (fun c => Py.isspace c = true) after ->
  t <> [] -> Forall (fun c => Py.isspace c = false) t ->
  Py.strip (before ++ t ++ after) = t.
Proof.
  intros Hb Ha Hne Ht. unfold Py.strip.
  rewrite (lstrip_spaces before _ Hb), (lstrip_clean t after Hne Ht).
  rewrite reverse_app, (lstrip_spaces (reverse after)) by (by apply Forall_reverse).
  rewrite <- (app_nil_r (reverse t)), lstrip_clean.
  - by rewrite app_nil_r, reverse_involutive.
  - intros Hr. apply Hne. by rewrite <- (reverse_involutive t), Hr.
  - by apply Forall_reverse.
Qed.

Lemma hash_no_space (rglob : tree -> list path) (d : slot) :
  exists_ d = true ->
  Forall (fun c => Py.isspace c = false) (Py.text_of (Upload.compute_data_hash rglob d)).
Proof.
  intros Hd. unfold Upload.compute_data_hash. rewrite Hd. apply hexdigest_no_space.
Qed.

Lemma text_of_hash_not_empty (rglob : tree -> list path) (d : slot) :
  exists_ d = true -> Py.text_of (Upload.compute_data_hash rglob d) <> [].
Proof.
  intros Hd. unfold Upload.compute_data_hash. rewrite Hd.
  exact (text_of_hexdigest_not_nil _).
Qed.

End HashFacts.

(** ** Backslashes in destination names *)

Module CleanFacts.

Import StrFacts.

Lemma replace_backslash (s : string) :
  Py.contains "\" (Py.replace "\" "/" s) = false.
Proof.
  unfold Py.replace. induction s as [|c s IH]; [done|].
  rewrite replace_go_0. rewrite prefix_cons.
  destruct (ascii_dec "\" c) as [<-|Hc].
  - rewrite prefix_nil_l. cbn [String.length Nat.sub].
    rewrite (app_cons "/" "" _), app_nil_l, contains_cons, prefix_cons.
    destruct (ascii_dec "\" "/") as [Heq|_]; [discriminate Heq|]. exact IH.
  - rewrite contains_cons, prefix_cons.
    destruct (ascii_dec "\" c) as [Heq|_]; [by destruct Hc|]. exact IH.
Qed.

Lemma contains_cons_false (p : string) (c : ascii) (s : string) :
  Py.contains p (String c s) = false -> Py.contains p s = false.
Proof. rewrite contains_cons. by intros [_ ?]%orb_false_iff. Qed.

Lemma contains_drop (p : string) (k : nat) (s : string) :
  Py.contains p s = false -> Py.contains p (Py.drop k s) = false.
Proof.
  revert s; induction k as [|k IH]; intros [|c s]; try done.
  intros H. cbn [Py.drop]. by apply IH, (contains_cons_false p c).
Qed.

Lemma length_drop (k : nat) (s : string) :
  String.length (Py.drop k s) <= String.length s.
Proof.
  revert s; induction k as [|k IH]; intros [|c s]; cbn; try lia.
  specialize (IH s). lia.
Qed.

(** Taking the marker out brings no backslash in. *)
Lemma unmark_backslash (s : string) :
  Py.contains "\" s = false -> Py.contains "\" (unmark s) = false.
Proof.
  remember (String.length s) as n eqn:Hn. revert s Hn.
  induction n as [n IH] using lt_wf_ind. intros [|c s] Hn Hs; [done|].
  rewrite unmark_cons. cbn [String.length] in Hn.
  destruct (String.prefix ".nogz" (String c s)).
  - apply (IH (String.length (Py.drop 4 s))); [|done|].
    + pose proof (length_drop 4 s). lia.
    + by apply contains_drop, (contains_cons_false _ c).
  - rewrite contains_cons in Hs |- *. apply orb_false_iff in Hs as [Hp Hs].
    rewrite prefix_cons in Hp |- *. destruct (ascii_dec "\" c); [by rewrite prefix_nil_l in Hp|].
    cbn [orb]. by apply (IH (String.length s)); [lia|..].
Qed.

End CleanFacts.

(** ** A run of the script on a build directory with supported files *)

Module RunFacts.

Import PathLib Fs TreeFacts UploadFacts PathOrder PrepareFacts PrepareRuns LoopFacts
       SourceFacts CleanupFacts.

Section Run.

Variable rglob : tree -> list path.
Hypothesis rglob_lists : lists_every_entry rglob.
Variable gzip_compress : Z -> Z -> list byte -> list byte.

Lemma script_run (w w' : Prepare.world) :
  Prepare.has_files rglob w = true ->
  Prepare.script rglob gzip_compress w = inr w' ->
  exists t r,
    Prepare.build w = Folder t /\ (forall c, Prepare.data w <> Regular c) /\
    for_each (Prepare.process gzip_compress (Folder t)) (sorted (rglob t)) (∅, 0) = inr r /\
    w' = Prepare.print
           ("LittleFS: Prepared " +:+ pretty r.2 +:+ " web assets in data/")
           (Prepare.World
              (Folder (fold_left Prepare.discard
                         (rev (sorted (Prepare.iterdir rglob t))) t))
              (Folder r.1) (Prepare.stdout w) (Prepare.stderr w)).
Proof.
  intros Hfiles Hrun. unfold Prepare.script in Hrun.
  rewrite Hfiles in Hrun. cbn [negb] in Hrun.
  destruct (prepare_inr rglob gzip_compress w w' Hrun) as (t & r & Hb & Hd & Hloop & _).
  rewrite Hb in Hloop.
  rewrite (prepare_folder rglob gzip_compress w t Hb Hd), Hloop in Hrun.
  injection Hrun as <-. by exists t, r.
Qed.

Lemma eligible_sorted (t : tree) (f : path) :
  Prepare.eligible (Folder t) f -> f ∈ sorted (rglob t).
Proof.
  intros Hel. rewrite sorted_Permutation. apply (elem_of_rglob rglob rglob_lists).
  destruct (eligible_is_entry t f Hel) as [_ [c Hc]]. by eexists.
Qed.

(** A run on a build directory with supported files leaves files in
    [data/]. *)
Lemma script_run_not_empty (w w' : Prepare.world) :
  Prepare.has_files rglob w = true ->
  Prepare.script rglob gzip_compress w = inr w' ->
  exists d, Prepare.data w' = Folder d /\ d <> ∅.
Proof.
  intros Hfiles Hrun.
  destruct (script_run w w' Hfiles Hrun) as (t & r & Hb & _ & Hloop & ->).
  exists r.1. split; [done|].
  apply (has_files_iff rglob rglob_lists) in Hfiles as [f Hel]. rewrite Hb in Hel.
  destruct (loop_targets gzip_compress (Folder t) _ _ _ Hloop) as [_ Hall].
  destruct (Hall f (eligible_sorted t f Hel) Hel) as (q & c & _ & Hq).
  intros Hempty. by rewrite Hempty, lookup_empty in Hq.
Qed.

End Run.

End RunFacts.

(** ** Which source a file of [data/] comes from *)

Module WinnerFacts.

Import PathLib Fs TreeFacts UploadFacts PathOrder PlainFacts LoopFacts SourceFacts DirFacts.

Section Loop.

Variable gzip_compress : Z -> Z -> list byte -> list byte.
Variable src : slot.

(** The loop body on a supported file, step by step. *)
Lemma process_step (acc acc' : tree * nat) (f : path) :
  file_in src f = true -> Prepare.supported f = true ->
  Prepare.process gzip_compress src acc f = inr acc' ->
  exists out d1,
    child (Prepare.target f) = inr out /\
    mkdir_parents (length out) acc.1 (parent out) = inr d1 /\
    write_bytes d1 (if Prepare.is_nogz (name f) && is_dir d1 out
                    then out ++ [name f] else out)
                (Prepare.payload gzip_compress src f) = inr acc'.1.
Proof.
  intros Hf Hs. unfold Prepare.process, Prepare.target, Prepare.payload.
  rewrite Hf, Hs. cbn [negb].
  destruct (Prepare.is_nogz (name f)).
  - destruct (child _) as [e|out]; [done|]. cbn [bind].
    destruct (mkdir_parents _ _ _) as [e|d1] eqn:Hmk; [done|]. cbn [bind].
    destruct (shutil_copy _ _ _ _) as [e|d2] eqn:Hcp; [done|]. cbn [bind].
    intros [= <-]. by exists out, d1.
  - destruct (child _) as [e|out]; [done|]. cbn [bind].
    destruct (mkdir_parents _ _ _) as [e|d1] eqn:Hmk; [done|]. cbn [bind].
    destruct (write_bytes _ _ _) as [e|d2] eqn:Hwr; [done|]. cbn [bind].
    intros [= <-]. by exists out, d1.
Qed.

(** The loop body keeps the directories of [data/]. *)
Lemma process_keeps_dirs (acc acc' : tree * nat) (f q : path) :
  Prepare.process gzip_compress src acc f = inr acc' ->
  acc.1 !! q = Some Dir -> acc'.1 !! q = Some Dir.
Proof.
  intros Hrun Hq.
  destruct (file_in src f && Prepare.supported f) eqn:He.
  2:{ rewrite (process_skipped gzip_compress src acc f He) in Hrun.
      by injection Hrun as <-. }
  apply andb_true_iff in He as [Hf Hs].
  destruct (process_step acc acc' f Hf Hs Hrun) as (out & d1 & _ & Hmk & Hwr).
  destruct (write_bytes_target _ _ _ _ Hwr) as (-> & _ & Hfree).
  apply mkdir_parents_inr in Hmk as [Hin _]. apply Hin in Hq.
  rewrite lookup_insert_ne; [done|]. intros <-. by rewrite Hq in Hfree.
Qed.

Lemma loop_keeps (l : list path) :
  forall acc acc' : tree * nat,
    for_each (Prepare.process gzip_compress src) l acc = inr acc' ->
    (forall q, acc.1 !! q = Some Dir -> acc'.1 !! q = Some Dir) /\
    (forall q c, acc.1 !! q = Some (File c) -> exists c', acc'.1 !! q = Some (File c')).
Proof.
  induction l as [|f l IH]; intros acc acc'; cbn [for_each].
  - intros [= <-]. split; [done|by eauto].
  - destruct (Prepare.process gzip_compress src acc f) as [e|acc1] eqn:Hstep; [done|].
    cbn [bind]. intros Hrest. destruct (IH _ _ Hrest) as [Hd Hf]. split.
    + intros q Hq. by apply Hd, (process_keeps_dirs acc acc1 f).
    + intros q c Hq.
      destruct (process_keeps_files gzip_compress src acc acc1 f q c Hstep Hq) as [c1 Hc1].
      by apply (Hf q c1).
Qed.

(** Where a file has been written is seen in every later state. *)
Lemma place_stable (d d' : tree) (f q : path) (c : list byte) :
  (forall p, d !! p = Some Dir -> d' !! p = Some Dir) ->
  (forall p c, d !! p = Some (File c) -> exists c', d' !! p = Some (File c')) ->
  Prepare.place d f = inr q -> d !! q = Some (File c) ->
  Prepare.place d' f = inr q.
Proof.
  intros Hdirs Hfiles. unfold Prepare.place.
  destruct (child (Prepare.target f)) as [e|out]; [done|]. cbn [bind].
  destruct (Prepare.is_nogz (name f)); cbn [andb]; [|done].
  intros Hq Hc. destruct out as [|a out]; [done|].
  destruct (is_dir d (a :: out)) eqn:Hd.
  - apply is_dir_lookup in Hd; [|done]. apply Hdirs in Hd.
    apply is_dir_lookup in Hd; [|done]. by rewrite Hd.
  - injection Hq as <-. destruct (Hfiles _ _ Hc) as [c' Hc'].
    unfold is_dir. cbn [lookup_node]. by rewrite Hc'.
Qed.

(** The loop body on a supported file: its place holds its payload, and
    the other files are the ones from before. *)
Lemma process_place (acc acc' : tree * nat) (f : path) :
  file_in src f = true -> Prepare.supported f = true ->
  Prepare.process gzip_compress src acc f = inr acc' ->
  exists q,
    Prepare.place acc'.1 f = inr q /\
    acc'.1 !! q = Some (File (Prepare.payload gzip_compress src f)) /\
    forall p c, p <> q -> acc'.1 !! p = Some (File c) -> acc.1 !! p = Some (File c).
Proof.
  intros Hf Hs Hrun.
  destruct (process_step acc acc' f Hf Hs Hrun) as (out & d1 & Hout & Hmk & Hwr).
  destruct (write_bytes_target _ _ _ _ Hwr) as (Hacc & Hkey & Hfree).
  apply mkdir_parents_inr in Hmk as [_ Hback].
  exists (if Prepare.is_nogz (name f) && is_dir d1 out then out ++ [name f] else out).
  split; [|split].
  - unfold Prepare.place. rewrite Hout. cbn [bind]. f_equal.
    destruct (Prepare.is_nogz (name f)); cbn [andb] in *; [|done].
    rewrite Hacc. destruct (is_dir d1 out) eqn:Hd.
    + assert (is_dir (<[out ++ [name f] := File (Prepare.payload gzip_compress src f)]> d1)
                out = true) as ->; [|done].
      destruct out as [|a out]; [done|]. apply is_dir_lookup; [done|].
      rewrite lookup_insert_ne; [by apply is_dir_lookup in Hd|].
      intros Heq. apply (f_equal length) in Heq. rewrite length_app in Heq.
      cbn in Heq. lia.
    + assert (is_dir (<[out := File (Prepare.payload gzip_compress src f)]> d1)
                out = false) as ->; [|done].
      destruct out as [|a out]; [done|]. unfold is_dir. cbn [lookup_node].
      by rewrite lookup_insert_eq.
  - rewrite Hacc. apply lookup_insert_eq.
  - intros p c Hp. rewrite Hacc, lookup_insert_ne by done. apply Hback.
Qed.

(** Every supported file of the list has a file at its place. *)
Lemma loop_places (l : list path) :
  forall acc acc' : tree * nat,
    for_each (Prepare.process gzip_compress src) l acc = inr acc' ->
    forall f, f ∈ l -> Prepare.eligible src f ->
      exists q c, Prepare.place acc'.1 f = inr q /\ acc'.1 !! q = Some (File c).
Proof.
  induction l as [|f l IH]; intros acc acc'; cbn [for_each].
  - intros _ f Hf. by apply elem_of_nil in Hf.
  - destruct (Prepare.process gzip_compress src acc f) as [e|acc1] eqn:Hstep; [done|].
    cbn [bind]. intros Hrest g Hg Hel.
    apply elem_of_cons in Hg as [->|Hg]; [|by apply (IH _ _ Hrest)].
    destruct Hel as [Hf Hs].
    destruct (process_place acc acc1 f Hf Hs Hstep) as (q & Hq & Hc & _).
    destruct (loop_keeps l _ _ Hrest) as [Hdirs Hfiles].
    destruct (Hfiles _ _ Hc) as [c' Hc'].
    exists q, c'. split; [|done]. by apply (place_stable acc1.1 acc'.1 f q _ Hdirs Hfiles Hq Hc).
Qed.

(** A file the loop leaves was there before and no supported file of
    the list has its place there, or it holds the payload of the last
    supported file of the list with its place there. *)
Lemma loop_last (l : list path) :
  forall (acc acc' : tree * nat) (q : path) (c : list byte),
    for_each (Prepare.process gzip_compress src) l acc = inr acc' ->
    acc'.1 !! q = Some (File c) ->
    (acc.1 !! q = Some (File c) /\
     forall h, h ∈ l -> Prepare.eligible src h -> Prepare.place acc'.1 h <> inr q) \/
    (exists l1 g l2,
       l = l1 ++ g :: l2 /\ Prepare.eligible src g /\
       Prepare.place acc'.1 g = inr q /\ c = Prepare.payload gzip_compress src g /\
       forall h, h ∈ l2 -> Prepare.eligible src h -> Prepare.place acc'.1 h <> inr q).
Proof.
  induction l as [|f l IH]; intros acc acc' q c; cbn [for_each].
  - intros [= <-] Hq. left. split; [done|]. intros h Hh. by apply elem_of_nil in Hh.
  - destruct (Prepare.process gzip_compress src acc f) as [e|acc1] eqn:Hstep; [done|].
    cbn [bind]. intros Hrest Hq.
    destruct (IH _ _ _ _ Hrest Hq) as [[Hq1 Hnone]|(l1 & g & l2 & -> & Hrestg)].
    2:{ right. by exists (f :: l1), g, l2. }
    destruct (file_in src f && Prepare.supported f) eqn:He.
    2:{ rewrite (process_skipped gzip_compress src acc f He) in Hstep.
        injection Hstep as <-. left. split; [done|].
        intros h [->|Hh]%elem_of_cons [Hf Hs]; [by rewrite Hf, Hs in He|].
        by apply Hnone. }
    apply andb_true_iff in He as [Hf Hs].
    destruct (process_place acc acc1 f Hf Hs Hstep) as (q0 & Hq0 & Hc0 & Hold).
    destruct (loop_keeps l _ _ Hrest) as [Hdirs Hfiles].
    pose proof (place_stable acc1.1 acc'.1 f q0 _ Hdirs Hfiles Hq0 Hc0) as Hq0'.
    destruct (decide (q = q0)) as [->|Hne].
    + right. exists [], f, l. split; [done|]. split; [done|]. split; [done|].
      split; [|done]. rewrite Hc0 in Hq1. by injection Hq1.
    + left. split; [by apply Hold|].
      intros h [->|Hh]%elem_of_cons Hel; [|by apply Hnone].
      rewrite Hq0'. by intros [= <-].
Qed.

End Loop.

End WinnerFacts.

(** ** Further properties of the two scripts *)

Module Further.

Import PathLib Fs TreeFacts UploadFacts UploadGate PathOrder PrepareFacts PrepareRuns
       LoopFacts SourceFacts CleanupFacts TotalFacts DirFacts HashFacts CleanFacts RunFacts
       WinnerFacts.

(** The implementation of SHA-256 and of CRC-32 on the usual test
    strings. *)
Example sha256_abc :
  Sha256.hexdigest (Py.encode "abc") =
  "ba7816bf8f01cfea414140de5dae2223b00361a396177a9cb410ff61f20015ad".
Proof. by vm_compute. Qed.

Example sha256_empty :
  Sha256.hexdigest Sha256.new =
  "e3b0c44298fc1c149afbf4c8996fb92427ae41e4649b934ca495991b7852b855".
Proof. by vm_compute. Qed.

Example crc32_check : Gzip.crc32 (Py.encode "123456789") = 0xcbf43926%Z.
Proof. by vm_compute. Qed.

(** Without [data/], or with nothing below it, the hook logs that it
    skips the upload and changes nothing else. *)
Theorem no_data_skips
  (rglob : tree -> list path) (executable PIOENV : string)
  (returncode : list string -> Z) (w : Upload.world) :
  lists_every_entry rglob ->
  (forall t, Upload.data w = Folder t -> t = ∅) ->
  Upload.upload_fs_if_changed rglob executable PIOENV returncode w =
  Upload.World (Upload.data w) (Upload.hash_file w)
    (Upload.stdout w ++ ["LittleFS: No data/ directory, skipping filesystem upload"])
    (Upload.stderr w) (Upload.commands w).
Proof.
  intros Hl Hempty. unfold Upload.upload_fs_if_changed.
  destruct (Upload.data w) as [|c|t] eqn:Hd; try done.
  rewrite (Hempty t eq_refl). unfold Upload.entries.
  by rewrite (proj2 (rglob_nil rglob Hl ∅) eq_refl).
Qed.

Lemma no_data_skips_witness :
  Upload.upload_fs_if_changed listing "python" "esp32" (fun _ => 0%Z)
    (Upload.World Missing None [] [] []) =
  Upload.World Missing None
    ([] ++ ["LittleFS: No data/ directory, skipping filesystem upload"]) [] [].
Proof.
  apply (no_data_skips listing "python" "esp32" (fun _ => 0%Z)
           (Upload.World Missing None [] [] [])).
  - exact listing_lists_every_entry.
  - intros t Ht. discriminate Ht.
Defined.

(** After a run on a [data/] with entries in which the upload command, if
    run, exits with status 0, the state file holds the fingerprint of
    [data/], and a second run on the same [data/] runs no command and
    leaves the state file as it is. *)
Theorem second_run_skips
  (rglob : tree -> list path) (executable PIOENV : string)
  (returncode : list string -> Z) (w : Upload.world) (t : tree) :
  lists_every_entry rglob -> Upload.data w = Folder t -> t <> ∅ ->
  returncode (Upload.upload_command executable PIOENV) = 0%Z ->
  let w1 := Upload.upload_fs_if_changed rglob executable PIOENV returncode w in
  let w2 := Upload.upload_fs_if_changed rglob executable PIOENV returncode w1 in
  Upload.previous_hash w1 =
    Py.text_of (Upload.compute_data_hash rglob (Upload.data w)) /\
  Upload.commands w2 = Upload.commands w1 /\
  Upload.hash_file w2 = Upload.hash_file w1.
Proof.
  intros Hl Hd Hne Hrc. cbv zeta.
  set (w1 := Upload.upload_fs_if_changed rglob executable PIOENV returncode w).
  assert (Upload.data w1 = Folder t /\
          Upload.previous_hash w1 =
            Py.text_of (Upload.compute_data_hash rglob (Upload.data w))) as [Hd1 Hp1].
  { unfold w1. rewrite (hook_on_content rglob executable PIOENV returncode w t Hl Hd Hne).
    cbv zeta. rewrite Hrc, Z.eqb_refl.
    destruct (bool_decide_reflect
                (Py.text_of (Upload.compute_data_hash rglob (Upload.data w)) =
                 Upload.previous_hash w)) as [Heq|Hneq].
    - split; [exact Hd|]. symmetry. exact Heq.
    - split; [exact Hd|]. unfold Upload.previous_hash. cbn [Upload.hash_file].
      apply strip_text_of_hash. by rewrite Hd. }
  split; [exact Hp1|].
  rewrite (hook_on_content rglob executable PIOENV returncode w1 t Hl Hd1 Hne).
  cbv zeta. rewrite Hd1, Hp1, Hd. by rewrite bool_decide_eq_true_2.
Qed.

Lemma second_run_skips_witness :
  let w := Upload.World (Folder Samples.two_assets) None [] [] [] in
  let w1 := Upload.upload_fs_if_changed listing "python" "esp32" (fun _ => 0%Z) w in
  let w2 := Upload.upload_fs_if_changed listing "python" "esp32" (fun _ => 0%Z) w1 in
  Upload.previous_hash w1 =
    Py.text_of (Upload.compute_data_hash listing (Upload.data w)) /\
  Upload.commands w2 = Upload.commands w1 /\
  Upload.hash_file w2 = Upload.hash_file w1.
Proof.
  exact (second_run_skips listing "python" "esp32" (fun _ => 0%Z)
           (Upload.World (Folder Samples.two_assets) None [] [] [])
           Samples.two_assets listing_lists_every_entry eq_refl
           two_assets_not_empty eq_refl).
Defined.

Lemma filter_length_perm {A} (p : A -> bool) (l k : list A) :
  l ≡ₚ k -> List.filter p l ≡ₚ List.filter p k.
Proof.
  induction 1 as [|x l k _ IH|x y l|l k m _ IH1 _ IH2]; cbn [List.filter].
  - done.
  - destruct (p x); by rewrite IH.
  - destruct (p x), (p y); try done. apply perm_swap.
  - by rewrite IH1.
Qed.

(** The count that [prepare] reports is the number of supported files
    among the entries it has gone through. *)
Lemma loop_count
  (gzip_compress : Z -> Z -> list byte -> list byte) (src : slot) (l : list path) :
  forall acc acc' : tree * nat,
    for_each (Prepare.process gzip_compress src) l acc = inr acc' ->
    acc'.2 = acc.2 + length (List.filter (fun f => file_in src f && Prepare.supported f) l).
Proof.
  induction l as [|f l IH]; intros acc acc'; cbn [for_each List.filter].
  - intros [= <-]. cbn. lia.
  - destruct (Prepare.process gzip_compress src acc f) as [e|acc1] eqn:Hstep; [done|].
    cbn [bind]. intros Hrest. rewrite (IH _ _ Hrest).
    destruct (file_in src f && Prepare.supported f) eqn:He.
    + apply andb_true_iff in He as [Hf Hs].
      destruct (process_supported gzip_compress src acc acc1 f Hf Hs Hstep)
        as (out & d1 & _ & _ & Hcount & _).
      rewrite Hcount. cbn [length]. lia.
    + rewrite (process_skipped gzip_compress src acc f He) in Hstep.
      by injection Hstep as <-.
Qed.

Theorem reported_count
  (rglob : tree -> list path) (gzip_compress : Z -> Z -> list byte -> list byte)
  (w w' : Prepare.world) (t : tree) :
  Prepare.build w = Folder t -> Prepare.has_files rglob w = true ->
  Prepare.script rglob gzip_compress w = inr w' ->
  Prepare.stdout w' = Prepare.stdout w ++
    ["LittleFS: Prepared " +:+
     pretty (length (List.filter (fun f => file_in (Folder t) f && Prepare.supported f)
                       (rglob t))) +:+
     " web assets in data/"].
Proof.
  intros Hb Hfiles Hrun. unfold Prepare.script in Hrun.
  rewrite Hfiles in Hrun. cbn [negb] in Hrun.
  apply (prepare_inr rglob) in Hrun as (t0 & r & Hb0 & _ & Hloop & _ & Hout & _).
  rewrite Hb in Hb0, Hloop. injection Hb0 as <-.
  rewrite Hout. apply loop_count in Hloop. cbn [snd] in Hloop. rewrite Hloop.
  cbn [Nat.add]. do 5 f_equal.
  apply Permutation_length, filter_length_perm, sorted_Permutation.
Qed.

Lemma reported_count_witness :
  exists w',
    Prepare.script listing Gzip.compress
      (Prepare.World (Folder Samples.site) Missing [] []) = inr w' /\
    Prepare.stdout w' = ["LittleFS: Prepared 3 web assets in data/"].
Proof.
  destruct (Prepare.script listing Gzip.compress
              (Prepare.World (Folder Samples.site) Missing [] [])) as [e|w'] eqn:Hrun.
  - exfalso. vm_compute in Hrun. discriminate Hrun.
  - exists w'. split; [reflexivity|].
    rewrite (reported_count listing Gzip.compress
               (Prepare.World (Folder Samples.site) Missing [] []) w'
               Samples.site eq_refl eq_refl Hrun).
    by vm_compute.
Defined.

Lemma site_well_formed : well_formed Samples.site.
Proof. refine (bool_decide_unpack _ _). vm_compute. reflexivity. Qed.

Lemma plain_site_well_formed : well_formed Samples.plain_site.
Proof. refine (bool_decide_unpack _ _). vm_compute. reflexivity. Qed.

(** A run of the script on a build directory with supported files
    leaves of that directory the entries whose first part starts with a
    dot or has the suffix [.py], with everything below them, and nothing
    else. *)
Theorem cleanup_keeps
  (rglob : tree -> list path) (gzip_compress : Z -> Z -> list byte -> list byte)
  (w w' : Prepare.world) (t : tree) :
  lists_every_entry rglob -> Prepare.build w = Folder t -> well_formed t ->
  Prepare.has_files rglob w = true ->
  Prepare.script rglob gzip_compress w = inr w' ->
  Prepare.build w' =
  Folder (filter (fun kv => Prepare.kept (hd "" kv.1) = true) t).
Proof.
  intros Hl Hb Hwf Hfiles Hrun.
  destruct (script_run rglob gzip_compress w w' Hfiles Hrun) as (t0 & r & Hb0 & _ & _ & ->).
  rewrite Hb in Hb0. injection Hb0 as <-.
  cbn [Prepare.print Prepare.build]. f_equal. by apply cleanup_result.
Qed.

Lemma cleanup_keeps_witness :
  exists w',
    Prepare.script listing Gzip.compress
      (Prepare.World (Folder Samples.site) Missing [] []) = inr w' /\
    Prepare.build w' = Folder {[ [".gitignore"] := File (Py.encode "*") ]}.
Proof.
  destruct (Prepare.script listing Gzip.compress
              (Prepare.World (Folder Samples.site) Missing [] [])) as [e|w'] eqn:Hrun.
  - exfalso. vm_compute in Hrun. discriminate Hrun.
  - exists w'. split; [reflexivity|].
    rewrite (cleanup_keeps listing Gzip.compress
               (Prepare.World (Folder Samples.site) Missing [] []) w' Samples.site
               listing_lists_every_entry eq_refl site_well_formed eq_refl Hrun).
    by vm_compute.
Defined.





(** The condition on directories is needed: with [a.js] beside a
    directory [a.js.gz] that holds a supported file, the script ends in
    [FileExistsError]. *)
Remark gz_dir_fails :
  well_formed Samples.gz_dir /\
  (forall f, Prepare.eligible (Folder Samples.gz_dir) f -> Prepare.plain f = true) /\
  Prepare.script listing Gzip.compress
    (Prepare.World (Folder Samples.gz_dir) Missing [] []) = inl FileExistsError.
Proof.
  split; [|split].
  - refine (bool_decide_unpack _ _). vm_compute. reflexivity.
  - intros f Hf%(eligible_sorted listing listing_lists_every_entry). revert f Hf.
    apply Forall_forall. refine (bool_decide_unpack _ _). vm_compute. exact I.
  - vm_compute. reflexivity.
Qed.



(** A run of the script on a build directory with supported files does
    not depend on what [data/] held: from two states with the same build
    directory it ends with the same [data/] and the same build
    directory. *)
Theorem rebuilt_from_scratch
  (rglob : tree -> list path) (gzip_compress : Z -> Z -> list byte -> list byte)
  (w1 w2 w1' : Prepare.world) :
  Prepare.has_files rglob w1 = true ->
  Prepare.build w2 = Prepare.build w1 ->
  (forall c, Prepare.data w2 <> Regular c) ->
  Prepare.script rglob gzip_compress w1 = inr w1' ->
  exists w2',
    Prepare.script rglob gzip_compress w2 = inr w2' /\
    Prepare.data w2' = Prepare.data w1' /\
    Prepare.build w2' = Prepare.build w1'.
Proof.
  intros Hfiles Hb Hd Hrun.
  destruct (script_run rglob gzip_compress w1 w1' Hfiles Hrun)
    as (t & r & Hb1 & _ & Hloop & ->).
  unfold Prepare.script.
  assert (Prepare.has_files rglob w2 = true) as ->
    by (unfold Prepare.has_files in *; by rewrite Hb).
  cbn [negb]. rewrite Hb1 in Hb.
  rewrite (prepare_folder rglob gzip_compress w2 t Hb Hd), Hloop.
  by eexists.
Qed.

Lemma rebuilt_from_scratch_witness :
  let w1 := Prepare.World (Folder Samples.site) Missing [] [] in
  let w2 := Prepare.World (Folder Samples.site) (Folder Samples.two_assets) [] [] in
  let w1' := match Prepare.script listing Gzip.compress w1 with
             | inr x => x
             | inl _ => w1
             end in
  exists w2',
    Prepare.script listing Gzip.compress w2 = inr w2' /\
    Prepare.data w2' = Prepare.data w1' /\
    Prepare.build w2' = Prepare.build w1'.
Proof.
  intros w1 w2 w1'.
  refine (rebuilt_from_scratch listing Gzip.compress w1 w2 w1' _ eq_refl _ _).
  - vm_compute. reflexivity.
  - intros c. discriminate.
  - vm_compute. reflexivity.
Defined.





(** The fingerprint depends on the files of [data/] alone: two
    directories with the same files, whatever their directories, have the
    same fingerprint. *)
Theorem fingerprint_ignores_directories (rglob : tree -> list path) (t t' : tree) :
  lists_every_entry rglob ->
  (forall p c, t !! p = Some (File c) <-> t' !! p = Some (File c)) ->
  Upload.compute_data_hash rglob (Folder t) = Upload.compute_data_hash rglob (Folder t').
Proof. intros Hl Hsame. by apply hash_same_files. Qed.

Lemma fingerprint_ignores_directories_witness :
  Upload.compute_data_hash listing (Folder Samples.two_assets) =
  Upload.compute_data_hash listing (Folder (<[ ["empty"] := Dir ]> Samples.two_assets)).
Proof.
  apply (fingerprint_ignores_directories listing Samples.two_assets
           (<[ ["empty"] := Dir ]> Samples.two_assets) listing_lists_every_entry).
  intros p c. destruct (decide (p = ["empty"])) as [->|Hp].
  - rewrite lookup_insert_eq. split; [|discriminate].
    vm_compute. discriminate.
  - by rewrite lookup_insert_ne.
Defined.

(** Whitespace around the fingerprint in the state file does not count:
    when the state file holds the fingerprint of [data/] between
    whitespace, the hook takes the assets for unchanged, runs no command
    and leaves the state file as it is. *)
Theorem padded_state_matches
  (rglob : tree -> list path) (executable PIOENV : string)
  (returncode : list string -> Z) (w : Upload.world) (t : tree)
  (before after : Py.text) :
  lists_every_entry rglob -> Upload.data w = Folder t -> t <> ∅ ->
  Forall (fun c => Py.isspace c = true) before ->
  Forall (fun c => Py.isspace c = true) after ->
  Upload.hash_file w =
    Some (before ++ Py.text_of (Upload.compute_data_hash rglob (Upload.data w)) ++ after) ->
  Upload.upload_fs_if_changed rglob executable PIOENV returncode w =
  Upload.World (Upload.data w) (Upload.hash_file w)
    (Upload.stdout w ++ ["LittleFS: Web assets unchanged — skipping filesystem upload"])
    (Upload.stderr w) (Upload.commands w).
Proof.
  intros Hl Hd Hne Hb Ha Hstate.
  rewrite (hook_on_content rglob executable PIOENV returncode w t Hl Hd Hne).
  cbv zeta. rewrite bool_decide_eq_true_2; [reflexivity|].
  unfold Upload.previous_hash. rewrite Hstate. symmetry.
  apply strip_padded; [done|done| |].
  - apply text_of_hash_not_empty. by rewrite Hd.
  - apply hash_no_space. by rewrite Hd.
Qed.

Lemma padded_state_matches_witness :
  let w := Upload.World (Folder Samples.two_assets)
             (Some ([32%N] ++
                    Py.text_of (Upload.compute_data_hash listing (Folder Samples.two_assets)) ++
                    [10%N]))
             [] [] [] in
  Upload.upload_fs_if_changed listing "python" "esp32" (fun _ => 0%Z) w =
  Upload.World (Upload.data w) (Upload.hash_file w)
    (Upload.stdout w ++ ["LittleFS: Web assets unchanged — skipping filesystem upload"])
    (Upload.stderr w) (Upload.commands w).
Proof.
  intros w.
  refine (padded_state_matches listing "python" "esp32" (fun _ => 0%Z) w
            Samples.two_assets [32%N] [10%N]
            listing_lists_every_entry eq_refl two_assets_not_empty _ _ eq_refl).
  - by repeat constructor.
  - by repeat constructor.
Defined.

(** Whatever the state, the hook leaves [data/] as it is and runs no
    command but the upload command, at most once; and it writes the state
    file only after that command has exited with status 0, with the
    fingerprint of [data/]. *)
Theorem state_written_only_on_success
  (rglob : tree -> list path) (executable PIOENV : string)
  (returncode : list string -> Z) (w : Upload.world) :
  let w' := Upload.upload_fs_if_changed rglob executable PIOENV returncode w in
  Upload.data w' = Upload.data w /\
  (Upload.commands w' = Upload.commands w \/
   Upload.commands w' = Upload.commands w ++ [Upload.upload_command executable PIOENV]) /\
  (Upload.hash_file w' <> Upload.hash_file w ->
   returncode (Upload.upload_command executable PIOENV) = 0%Z /\
   Upload.commands w' = Upload.commands w ++ [Upload.upload_command executable PIOENV] /\
   Upload.hash_file w' =
     Some (Py.text_of (Upload.compute_data_hash rglob (Upload.data w)))).
Proof.
  cbv zeta. unfold Upload.upload_fs_if_changed.
  destruct (negb (exists_ (Upload.data w)) ||
            negb (any_path (Upload.entries rglob (Upload.data w)))).
  { cbn [Upload.data Upload.commands Upload.hash_file].
    split; [reflexivity|]. split; [left; reflexivity|].
    intros H. exfalso. apply H. reflexivity. }
  cbv zeta. destruct (bool_decide _).
  { cbn [Upload.data Upload.commands Upload.hash_file].
    split; [reflexivity|]. split; [left; reflexivity|].
    intros H. exfalso. apply H. reflexivity. }
  destruct (returncode (Upload.upload_command executable PIOENV) =? 0)%Z eqn:Hrc.
  - cbn [Upload.data Upload.commands Upload.hash_file].
    split; [reflexivity|]. split; [right; reflexivity|].
    intros _. split; [by apply Z.eqb_eq|]. split; reflexivity.
  - cbn [Upload.data Upload.commands Upload.hash_file].
    split; [reflexivity|]. split; [right; reflexivity|].
    intros H. exfalso. apply H. reflexivity.
Qed.


(** A failed upload is tried again: when the state file does not hold
    the fingerprint of [data/] and the upload command exits with another
    status than 0, two runs of the hook in a row run the command twice,
    and the state file is as it was. *)
Theorem failed_upload_is_retried
  (rglob : tree -> list path) (executable PIOENV : string)
  (returncode : list string -> Z) (w : Upload.world) (t : tree) :
  lists_every_entry rglob -> Upload.data w = Folder t -> t <> ∅ ->
  returncode (Upload.upload_command executable PIOENV) <> 0%Z ->
  Upload.previous_hash w <>
    Py.text_of (Upload.compute_data_hash rglob (Upload.data w)) ->
  let w1 := Upload.upload_fs_if_changed rglob executable PIOENV returncode w in
  let w2 := Upload.upload_fs_if_changed rglob executable PIOENV returncode w1 in
  Upload.commands w1 =
    Upload.commands w ++ [Upload.upload_command executable PIOENV] /\
  Upload.commands w2 =
    Upload.commands w ++ [Upload.upload_command executable PIOENV;
                          Upload.upload_command executable PIOENV] /\
  Upload.hash_file w2 = Upload.hash_file w.
Proof.
  intros Hl Hd Hne Hrc Hdiff. cbv zeta.
  assert (Hfail : forall u : Upload.world,
             Upload.data u = Upload.data w -> Upload.hash_file u = Upload.hash_file w ->
             Upload.upload_fs_if_changed rglob executable PIOENV returncode u =
             Upload.World (Upload.data u) (Upload.hash_file u)
               (Upload.stdout u ++
                  ["LittleFS: Web assets changed — uploading filesystem image..."])
               (Upload.stderr u ++ ["LittleFS: Filesystem upload FAILED!"])
               (Upload.commands u ++ [Upload.upload_command executable PIOENV])).
  { intros u Hdu Hhu.
    rewrite (hook_on_content rglob executable PIOENV returncode u t Hl)
      by (done || by rewrite Hdu).
    cbv zeta. rewrite bool_decide_eq_false_2.
    - apply Z.eqb_neq in Hrc. by rewrite Hrc.
    - unfold Upload.previous_hash. rewrite Hhu, Hdu. intros Heq. apply Hdiff.
      symmetry. exact Heq. }
  rewrite (Hfail w eq_refl eq_refl).
  split; [reflexivity|].
  rewrite Hfail by reflexivity. cbn [Upload.commands Upload.hash_file].
  split; [|reflexivity]. by rewrite <- app_assoc.
Qed.

Lemma failed_upload_is_retried_witness :
  let w := Upload.World (Folder Samples.two_assets) None [] [] [] in
  let w1 := Upload.upload_fs_if_changed listing "python" "esp32" (fun _ => 1%Z) w in
  let w2 := Upload.upload_fs_if_changed listing "python" "esp32" (fun _ => 1%Z) w1 in
  Upload.commands w1 =
    Upload.commands w ++ [Upload.upload_command "python" "esp32"] /\
  Upload.commands w2 =
    Upload.commands w ++ [Upload.upload_command "python" "esp32";
                          Upload.upload_command "python" "esp32"] /\
  Upload.hash_file w2 = Upload.hash_file w.
Proof.
  refine (failed_upload_is_retried listing "python" "esp32" (fun _ => 1%Z)
            (Upload.World (Folder Samples.two_assets) None [] [] [])
            Samples.two_assets listing_lists_every_entry eq_refl
            two_assets_not_empty _ _).
  - discriminate.
  - intros Heq. symmetry in Heq. revert Heq.
    apply text_of_hash_not_nil. reflexivity.
Defined.

(** The name under which an entry goes to [data/] has no backslash,
    whatever the names of the build directory. *)
Theorem clean_name_no_backslash (rel : path) :
  Py.contains "\" (Prepare.clean_name rel) = false /\
  Py.contains "\" (Prepare.target rel) = false.
Proof.
  assert (Py.contains "\" (Prepare.clean_name rel) = false) as Hclean.
  { unfold Prepare.clean_name. apply unmark_backslash, replace_backslash. }
  split; [done|]. unfold Prepare.target.
  destruct (Prepare.is_nogz (name rel)); [done|].
  rewrite (NameFacts.contains_char_app "\" (Prepare.clean_name rel) ".gz"), Hclean.
  reflexivity.
Qed.



End Further.
